(** * The scaffold generator of ninja-boilerplate, [create_module.py]

    A shallow embedding of [create_module.py]: the string helpers it calls,
    a file system rooted at the script's directory, the recursive template
    walk [_create_structure], the settings patch
    [_register_app_in_settings], [create_app] and [main]; and of the
    management command [core/management/commands/start_module.py], which
    makes a module of another shape in the same place.

    Modelling conventions.
    - Text is a [string] of ASCII characters.  The Python built-ins
      [str.lower], [str.capitalize], [str.isidentifier] and
      [str.splitlines] are modelled on that repertoire; a character above
      127 is never an identifier character and has no case.  Messages
      written to standard output keep the bytes of their UTF-8 encoding.
    - A path is the list of its components below [BASE_DIR] (the directory
      that holds the script), innermost component first, so that
      [base_path / name] is a cons and the parent is the tail.  The file
      system is a finite map from paths to nodes; [BASE_DIR] itself is the
      empty path and always a directory.
    - Python exceptions are values of [exn]; a computation is a function
      from the state (file system and standard output) to an outcome and a
      new state. *)

From stdpp Require Import gmap strings list fin_maps.
From Stdlib Require Import Ascii ZArith Lia.

#[local] Arguments String.append !s1 s2 : simpl nomatch.

(** ** Python strings *)

Module Str.

Definition nl : string := String (ascii_of_nat 10) "".

Definition in_range (lo hi : nat) (c : ascii) : bool :=
  let n := nat_of_ascii c in (lo <=? n)%nat && (n <=? hi)%nat.

Definition is_upper (c : ascii) : bool := in_range 65 90 c.
Definition is_lower (c : ascii) : bool := in_range 97 122 c.
Definition is_digit (c : ascii) : bool := in_range 48 57 c.

Definition to_lower (c : ascii) : ascii :=
  if is_upper c then ascii_of_nat (nat_of_ascii c + 32) else c.

Definition to_upper (c : ascii) : ascii :=
  if is_lower c then ascii_of_nat (nat_of_ascii c - 32) else c.

Fixpoint map_chars (f : ascii -> ascii) (s : string) : string :=
  match s with
  | EmptyString => EmptyString
  | String c s' => String (f c) (map_chars f s')
  end.

Fixpoint all_chars (f : ascii -> bool) (s : string) : bool :=
  match s with
  | EmptyString => true
  | String c s' => f c && all_chars f s'
  end.

(** [s.lower()] *)
Definition lower (s : string) : string := map_chars to_lower s.

(** [s.capitalize()]: the first character upper-cased, every other
    character lower-cased. *)
Definition capitalize (s : string) : string :=
  match s with
  | EmptyString => EmptyString
  | String c s' => String (to_upper c) (lower s')
  end.


Definition is_id_start (c : ascii) : bool :=
  is_upper c || is_lower c || Ascii.eqb c "_"%char.

Definition is_id_continue (c : ascii) : bool :=
  is_id_start c || is_digit c.

(** [s.isidentifier()] *)
Definition isidentifier (s : string) : bool :=
  match s with
  | EmptyString => false
  | String c s' => is_id_start c && all_chars is_id_continue s'
  end.

(** [needle in hay] on strings *)
Fixpoint contains (needle hay : string) : bool :=
  String.prefix needle hay ||
  match hay with
  | EmptyString => false
  | String _ hay' => contains needle hay'
  end.

(** [sep.join(l)] *)
Fixpoint join (sep : string) (l : list string) : string :=
  match l with
  | [] => ""
  | [x] => x
  | x :: rest => x +:+ sep +:+ join sep rest
  end.

(** The line boundaries of [str.splitlines] among ASCII characters:
    LF, VT, FF, CR, FS, GS, RS (and CR LF taken as one). *)
Definition is_linebreak (c : ascii) : bool :=
  in_range 10 13 c || in_range 28 30 c.

Definition is_cr (c : ascii) : bool := (nat_of_ascii c =? 13)%nat.
Definition is_lf (c : ascii) : bool := (nat_of_ascii c =? 10)%nat.

(** [s.splitlines()] *)
Fixpoint splitlines (s : string) : list string :=
  match s with
  | EmptyString => []
  | String c s' =>
      if is_linebreak c then
        match s' with
        | String c' s'' =>
            if is_cr c && is_lf c' then "" :: splitlines s''
            else "" :: splitlines s'
        | EmptyString => [""]
        end
      else
        match splitlines s' with
        | [] => [String c ""]
        | l :: ls => String c l :: ls
        end
  end.

(** [l.index(x)], [None] standing for [ValueError] *)
Fixpoint index (x : string) (l : list string) : option nat :=
  match l with
  | [] => None
  | y :: l' => if String.eqb y x then Some 0%nat else S <$> index x l'
  end.

(** [l.insert(i, x)] *)
Definition insert_at (i : nat) (x : string) (l : list string) : list string :=
  take i l ++ x :: drop i l.

(** [any(needle in line for line in l)] *)
Definition any_contains (needle : string) (l : list string) : bool :=
  existsb (contains needle) l.

End Str.


(** ** Paths, the file system and the state of a run *)

Abbreviation path := (list string).

Inductive node :=
| Dir
| File (text : string).

Abbreviation fsmap := (gmap (list string) node).

(** [base_path / name], for a [name] of one component *)
Definition joinpath (base_path : path) (name : string) : path := name :: base_path.
Infix "</>" := joinpath (at level 45, left associativity).

(** The path written as text, outermost component first. *)
Definition posix (p : path) : string := Str.join "/" (rev p).

(** [p.relative_to(base)]; [None] stands for [ValueError]. *)
Fixpoint relative_to (p base : path) : option path :=
  if decide (p = base) then Some []
  else match p with
       | [] => None
       | name :: parent => (name ::.) <$> relative_to parent base
       end.

Record state := State {
  fs : gmap (list string) node;
  stdout : list string
}.

Inductive exn :=
| AppCreationError (msg : string)
| FileExistsError (p : path)
| FileNotFoundError (p : path)
| NotADirectoryError (p : path)
| IsADirectoryError (p : path)
| ValueError (msg : string)
| SystemExit (code : Z).

(** [str(e)]; the operating system's messages carry the path below
    [BASE_DIR]. *)
Definition str_exn (e : exn) : string :=
  match e with
  | AppCreationError msg => msg
  | FileExistsError p => "[Errno 17] File exists: '" +:+ posix p +:+ "'"
  | FileNotFoundError p => "[Errno 2] No such file or directory: '" +:+ posix p +:+ "'"
  | NotADirectoryError p => "[Errno 20] Not a directory: '" +:+ posix p +:+ "'"
  | IsADirectoryError p => "[Errno 21] Is a directory: '" +:+ posix p +:+ "'"
  | ValueError msg => msg
  | SystemExit code => ""
  end.

(** [SystemExit] derives from [BaseException], everything else here from
    [Exception]. *)
Definition is_Exception (e : exn) : bool :=
  match e with
  | SystemExit _ => false
  | _ => true
  end.

Inductive outcome (A : Type) :=
| Return (a : A)
| Raise (e : exn).
Arguments Return {A} a.
Arguments Raise {A} e.

Definition M (A : Type) : Type := state -> outcome A * state.

#[global] Instance M_ret : MRet M := fun A a st => (Return a, st).

#[global] Instance M_bind : MBind M := fun A B k m st =>
  match m st with
  | (Return a, st') => k a st'
  | (Raise e, st') => (Raise e, st')
  end.

Definition raise {A : Type} (e : exn) : M A := fun st => (Raise e, st).

(** [try: body except Exception as e: handler e] *)
Definition try_except {A : Type} (body : M A) (handler : exn -> M A) : M A :=
  fun st =>
    match body st with
    | (Raise e, st') => if is_Exception e then handler e st' else (Raise e, st')
    | r => r
    end.

Section ForEach.
Context {A : Type} (body : A -> M unit).

(** [for x in l: body x] *)
Fixpoint for_each (l : list A) : M unit :=
  match l with
  | [] => mret tt
  | x :: l' => body x ;; for_each l'
  end.
End ForEach.

(** The exit status of the process that ran [m]. *)
Definition exit_status {A : Type} (r : outcome A) : Z :=
  match r with
  | Return _ => 0
  | Raise (SystemExit code) => code
  | Raise _ => 1
  end.

Module OS.

Definition lookup_node (m : fsmap) (p : path) : option node :=
  match p with
  | [] => Some Dir
  | _ => m !! p
  end.

Definition exists_in (m : fsmap) (p : path) : bool :=
  match lookup_node m p with
  | Some _ => true
  | None => false
  end.

Definition isdir_in (m : fsmap) (p : path) : bool :=
  match lookup_node m p with
  | Some Dir => true
  | _ => false
  end.

Definition print (line : string) : M unit :=
  fun st => (Return tt, State (fs st) (stdout st ++ [line])).

(** [p.exists()] *)
Definition path_exists (p : path) : M bool :=
  fun st => (Return (exists_in (fs st) p), st).

(** [os.path.isdir(p)] *)
Definition isdir (p : path) : M bool :=
  fun st => (Return (isdir_in (fs st) p), st).

(** [os.mkdir(p)] *)
Definition mkdir (p : path) : M unit :=
  fun st =>
    if exists_in (fs st) p then (Raise (FileExistsError p), st)
    else match lookup_node (fs st) (tail p) with
         | None => (Raise (FileNotFoundError p), st)
         | Some (File _) => (Raise (NotADirectoryError p), st)
         | Some Dir => (Return tt, State (<[p := Dir]> (fs st)) (stdout st))
         end.

(** [os.makedirs(name, exist_ok=True)]: the parents first when the
    parent is missing, then [mkdir], whose error is dropped when the
    directory is there. *)
Fixpoint makedirs (name : path) : M unit :=
  match name with
  | [] => mret tt
  | _ :: head =>
      (e ← path_exists head;
       if e : bool then mret tt
       else try_except (makedirs head)
              (fun e : exn => match e with
                        | FileExistsError _ => mret tt
                        | _ => raise e
                        end)) ;;
      try_except (mkdir name)
        (fun e : exn => d ← isdir name; if d : bool then mret tt else raise e)
  end.

(** [p.write_text(text)] *)
Definition write_text (p : path) (text : string) : M unit :=
  fun st =>
    match p with
    | [] => (Raise (IsADirectoryError p), st)
    | _ :: parent =>
        match lookup_node (fs st) parent with
        | None => (Raise (FileNotFoundError p), st)
        | Some (File _) => (Raise (NotADirectoryError p), st)
        | Some Dir =>
            match fs st !! p with
            | Some Dir => (Raise (IsADirectoryError p), st)
            | _ => (Return tt, State (<[p := File text]> (fs st)) (stdout st))
            end
        end
    end.

(** [p.read_text()] *)
Definition read_text (p : path) : M string :=
  fun st =>
    match lookup_node (fs st) p with
    | Some (File text) => (Return text, st)
    | Some Dir => (Raise (IsADirectoryError p), st)
    | None => (Raise (FileNotFoundError p), st)
    end.

(** [sys.exit(code)] *)
Definition sys_exit {A : Type} (code : Z) : M A := raise (SystemExit code).

End OS.

(** ** The generator, [class AppStructureGenerator] *)

Import Str OS.

(** [BASE_DIR] is the empty path. *)
Definition BASE_DIR : path := [].
Definition SETTINGS_FILE : path := BASE_DIR </> "core" </> "settings.py".
Definition MODULES_DIR : path := BASE_DIR </> "modules".

(** A template: the text of a file, or a dictionary from names to templates
    in the order in which it was written. *)
#[warnings="-register-all"]
Inductive entry :=
| Text (text : string)
| Dict (items : list (string * entry)).

(** Lines, each closed by a newline. *)
Definition unlines (l : list string) : string :=
  foldr (fun line rest => line +:+ nl +:+ rest) "" l.

Definition _generate_app_config (app_name : string) : string :=
  unlines [
    "from django.apps import AppConfig";
    "";
    "class " +:+ capitalize app_name +:+ "Config(AppConfig):";
    "    default_auto_field = 'django.db.models.BigAutoField'";
    "    label = '" +:+ app_name +:+ "'";
    "    name = 'modules." +:+ app_name +:+ "'"
  ].

Definition _generate_models_init : string :=
  unlines [
    "import os";
    "import importlib";
    "import inspect";
    "from django.db import models";
    "";
    "# Get the current directory";
    "current_dir = os.path.dirname(os.path.abspath(__file__))";
    "";
    "# Loop through all .py files in the models directory";
    "for file_name in os.listdir(current_dir):";
    "    if file_name.endswith('.py') and file_name != '__init__.py':";
    "        # Import the module";
    "        module_name = file_name[:-3]  # Remove .py extension";
    "        module = importlib.import_module(f'.{module_name}', package=__package__)";
    "        ";
    "        # Find all Django Model classes in the module";
    "        for name, obj in inspect.getmembers(module):";
    "            if inspect.isclass(obj) and issubclass(obj, models.Model) and obj != models.Model:";
    "                # Add the model to the current namespace";
    "                globals()[name] = obj"
  ].

Definition get_app_structure (app_name : string) : list (string * entry) :=
  [ ("delivery", Dict [
       ("__init__.py", Text "");
       ("api.py", Text "#write API endpoints and controllers here.");
       ("schemas.py", Text "#write ninja schemas here");
       ("middlewares.py", Text "#write your api middlewares here if needed") ]);
    ("repository", Dict [ ("__init__.py", Text "") ]);
    ("services", Dict [ ("__init__.py", Text "") ]);
    ("usecases", Dict [ ("__init__.py", Text "") ]);
    ("models", Dict [ ("__init__.py", Text _generate_models_init) ]);
    ("migrations", Dict [ ("__init__.py", Text "") ]);
    ("__init__.py", Text "");
    ("apps.py", Text (_generate_app_config app_name)) ].

(** [current_path.relative_to(self.MODULES_DIR)] *)
Definition relative_to_modules (current_path : path) : M path :=
  match relative_to current_path MODULES_DIR with
  | Some rel => mret rel
  | None => raise (ValueError ("'" +:+ posix current_path +:+ "' is not in the subpath of '"
                               +:+ posix MODULES_DIR +:+ "'"))
  end.

(** The handler of [_create_structure]. *)
Definition structure_failed (base_path : path) (e : exn) : M unit :=
  print (nl +:+ "❌ Error: Failed to create structure at " +:+ posix base_path +:+ ": " +:+ str_exn e) ;;
  raise (AppCreationError ("Structure creation failed: " +:+ str_exn e)).

(** One item of a template at [current_path]: a dictionary is the call
    [_create_structure(current_path, content)], a text is the [else]
    branch of the loop. *)
Fixpoint create_entry (current_path : path) (content : entry) : M unit :=
  match content with
  | Dict structure =>
      try_except
        (makedirs current_path ;;
         for_each (fun item => create_entry (current_path </> item.1) item.2) structure)
        (structure_failed current_path)
  | Text text =>
      rel ← relative_to_modules current_path;
      print ("   Creating: " +:+ posix rel) ;;
      write_text current_path text
  end.

Definition _create_structure (base_path : path) (structure : list (string * entry)) : M unit :=
  create_entry base_path (Dict structure).

Definition registration_entry (app_name : string) : string :=
  "    'modules." +:+ app_name +:+ ".apps." +:+ capitalize app_name +:+ "Config',".

Definition anchor : string := "LOCAL_APPS = [".

Definition _register_app_in_settings (app_name : string) : M unit :=
  try_except
    (e ← path_exists SETTINGS_FILE;
     if negb e then raise (AppCreationError "settings.py not found")
     else
       let app_config := registration_entry app_name +:+ nl in
       text ← read_text SETTINGS_FILE;
       let content := splitlines text in
       match index anchor content with
       | None => raise (AppCreationError "LOCAL_APPS section not found in settings.py")
       | Some start_index =>
           if any_contains app_name content then
             print (nl +:+ "⚠️  Warning: App '" +:+ app_name +:+ "' is already registered in settings.py")
           else
             let content := insert_at (start_index + 1) app_config content in
             write_text SETTINGS_FILE (join nl content)
       end)
    (fun e =>
       print (nl +:+ "❌ Error: Failed to register app in settings: " +:+ str_exn e) ;;
       raise (AppCreationError ("App registration failed: " +:+ str_exn e))).

Definition create_app (app_name : string) : M unit :=
  let app_dir := MODULES_DIR </> app_name in
  try_except
    (e ← path_exists app_dir;
     if e : bool then raise (AppCreationError ("App '" +:+ app_name +:+ "' already exists"))
     else
       print (nl +:+ "📦 Creating new app: " +:+ app_name) ;;
       _create_structure app_dir (get_app_structure app_name) ;;
       print "✅ App structure created successfully" ;;
       _register_app_in_settings app_name ;;
       print "✅ App registered in settings.py")
    (fun e =>
       print (nl +:+ "❌ Error: Failed to create app: " +:+ str_exn e) ;;
       raise (AppCreationError ("App creation failed: " +:+ str_exn e))).

(** ** The script, [main] *)

Definition success_report (app_name : string) : list string :=
  [ nl +:+ "🎉 Successfully created app: " +:+ app_name;
    nl +:+ "Structure created:";
    "   modules/" +:+ app_name +:+ "/";
    "   ├── delivery/";
    "   ├── repository/";
    "   ├── services/";
    "   ├── usecases/";
    "   ├── models/";
    "   ├── migrations/" ].

(** The guarded block of [main]: the generator runs, its report follows,
    and an error ends the process with status 1. *)
Definition run_generator (app_name : string) : M unit :=
  fun st =>
    match (create_app app_name ;; for_each print (success_report app_name)) st with
    | (Raise (AppCreationError msg), st') =>
        (print (nl +:+ "❌ Error: " +:+ msg) ;; sys_exit 1) st'
    | (Raise e, st') =>
        if is_Exception e then
          (print (nl +:+ "❌ Unexpected error occurred: " +:+ str_exn e) ;; sys_exit 1) st'
        else (Raise e, st')
    | r => r
    end.

(** [main] from the validation on, for the name [app_name] that [main]
    has read and lower-cased: the operation on a module name. *)
Definition CreateModule (app_name : string) : M unit :=
  if negb (isidentifier app_name) then
    print (nl +:+ "❌ Error: Invalid app name: " +:+ app_name) ;;
    print "App name must be a valid Python identifier" ;;
    sys_exit 1
  else run_generator app_name.

(** [main()], with [argv] for [sys.argv]. *)
Definition main (argv : list string) : M unit :=
  match argv with
  | [_; arg] => CreateModule (lower arg)
  | _ =>
      print (nl +:+ "❌ Error: Invalid number of arguments") ;;
      print "Usage: python create_app.py <app_name>" ;;
      sys_exit 1
  end.

(** ** The management command, [core/management/commands/start_module.py] *)

(** What the command needs of Python beyond the script: [str.replace],
    the reading of a file in text mode, and [pathlib]'s [/], [Path.mkdir]
    and [Path.touch]. *)
Module Pathlib.

(** What a read in text mode makes of the line ends: CR LF and a lone CR
    become LF. *)
Fixpoint universal_newlines (s : string) : string :=
  match s with
  | EmptyString => EmptyString
  | String c s' =>
      if is_cr c then
        match s' with
        | String c' s'' =>
            if is_lf c' then String c' (universal_newlines s'')
            else String (ascii_of_nat 10) (universal_newlines s')
        | EmptyString => nl
        end
      else String c (universal_newlines s')
  end.

(** [s.replace(old, new)], with [skip] characters of a match still to be
    passed over: every occurrence of [old], left to right, none
    overlapping another. *)
Fixpoint replace_from (old new : string) (skip : nat) (s : string) : string :=
  match s with
  | EmptyString =>
      match skip with
      | O => if String.prefix old EmptyString then new else EmptyString
      | S _ => EmptyString
      end
  | String c s' =>
      match skip with
      | S k => replace_from old new k s'
      | O =>
          if String.prefix old s then
            new +:+ match String.length old with
                    | O => String c (replace_from old new 0 s')
                    | S k => replace_from old new k s'
                    end
          else String c (replace_from old new 0 s')
      end
  end.

Definition replace (old new s : string) : string := replace_from old new 0 s.

(** The components of a relative path written with slashes; an empty
    component and a dot name nothing. *)
Fixpoint split_slash (s : string) : list string :=
  match s with
  | EmptyString => [EmptyString]
  | String c s' =>
      if Ascii.eqb c "/"%char then EmptyString :: split_slash s'
      else match split_slash s' with
           | [] => [String c EmptyString]
           | x :: xs => String c x :: xs
           end
  end.

Definition parts (s : string) : list string :=
  List.filter (fun x => negb (String.eqb x "" || String.eqb x ".")) (split_slash s).

(** [base / s] for a relative [s] of any number of components *)
Definition joinpaths (base : path) (s : string) : path := foldl joinpath base (parts s).

(** One [os.mkdir] of [Path.mkdir(exist_ok=True)]: a missing parent is left
    to [on_missing], any other error is dropped when the directory is
    there. *)
Definition mkdir_exist_ok (p : path) (on_missing : exn -> M unit) : M unit :=
  try_except (mkdir p)
    (fun e : exn =>
       match e with
       | FileNotFoundError _ => on_missing e
       | _ => d ← isdir p; if d : bool then mret tt else raise e
       end).

(** [p.mkdir(parents=True, exist_ok=True)] *)
Fixpoint mkdir_parents (p : path) : M unit :=
  mkdir_exist_ok p
    (fun e : exn =>
       match p with
       | [] => raise e
       | _ :: parent => mkdir_parents parent ;; mkdir_exist_ok p raise
       end).

(** [p.touch()]: what exists is left as it is (its times apart), what does
    not is created as an empty file. *)
Definition touch (p : path) : M unit :=
  e ← path_exists p;
  if e : bool then mret tt else write_text p "".

(** [with p.open('r') as f: f.read()] *)
Definition open_read (p : path) : M string :=
  text ← read_text p; mret (universal_newlines text).

End Pathlib.

Infix "<//>" := Pathlib.joinpaths (at level 45, left associativity).

Module Command.
Import Pathlib.

(** How [handle] ends: it returns, or a [CommandError] leaves it; [Uncaught]
    is an exception that is no [Exception]. *)
Inductive command_result :=
| Done
| CommandError (msg : string)
| Uncaught (e : exn).

Definition structure : list (string * option string) :=
  [ ("delivery/dtos", Some "user.dtos.py");
    ("delivery/handlers", Some "user.controller.py");
    ("delivery/middlewares", None);
    ("delivery/routes", Some "user.routes.py");
    ("repository", Some "user.repository.py");
    ("services", Some "user.services.py");
    ("usecases", Some "user.usecases.py") ].

(** The directories that get an [__init__.py]. *)
Definition packages : list string :=
  [ ""; "delivery"; "delivery/dtos"; "delivery/handlers";
    "delivery/middlewares"; "delivery/routes";
    "repository"; "services"; "usecases" ].

(** The text of [apps.py]. *)
Definition apps_text (module_name : string) : string :=
  nl +:+ unlines [
    "from django.apps import AppConfig";
    "";
    "class " +:+ capitalize module_name +:+ "Config(AppConfig):";
    "    default_auto_field = 'django.db.models.BigAutoField'";
    "    name = 'modules." +:+ module_name +:+ "'"
  ].

(** The mention of the module that [handle] looks for in the settings. *)
Definition quoted (module_name : string) : string := "'modules." +:+ module_name +:+ "'".

Definition installed_apps : string := "INSTALLED_APPS = [".

(** What [installed_apps] is replaced by. *)
Definition installed_apps_with (module_name : string) : string :=
  "INSTALLED_APPS = [" +:+ nl +:+ "    'modules." +:+ module_name +:+ "',".

(** The [try] block of [handle].  [self.stdout.write(self.style.SUCCESS(s))]
    is [print s]: the styles add nothing on an output without colours. *)
Definition create_and_register (base_dir module_dir : path) (module_name : string) : M unit :=
  mkdir_parents module_dir ;;
  for_each (fun item : string * option string =>
              let full_path := module_dir <//> item.1 in
              mkdir_parents full_path ;;
              match item.2 with
              | Some file_name => touch (full_path <//> file_name)
              | None => mret tt
              end) structure ;;
  for_each (fun sub_dir => touch (module_dir <//> sub_dir <//> "__init__.py")) packages ;;
  let apps_file := module_dir <//> "apps.py" in
  write_text apps_file (apps_text module_name) ;;
  print ("Module '" +:+ module_name +:+ "' created successfully.") ;;
  let settings_file := base_dir <//> "core/settings.py" in
  settings_content ← open_read settings_file;
  if negb (contains (quoted module_name) settings_content) then
    let new_settings_content :=
      replace installed_apps (installed_apps_with module_name) settings_content in
    write_text settings_file new_settings_content ;;
    print ("Module '" +:+ module_name +:+ "' registered in settings.INSTALLED_APPS.")
  else mret tt.

(** [Command.handle], with [module_name] for [options['module_name']];
    [settings.BASE_DIR] is the project root [BASE_DIR]. *)
Definition handle (module_name : string) (st : state) : command_result * state :=
  let base_dir := BASE_DIR in
  let modules_dir := base_dir <//> "modules" in
  let module_dir := modules_dir <//> module_name in
  if exists_in (fs st) module_dir then
    (CommandError ("The module '" +:+ module_name +:+ "' already exists."), st)
  else
    match create_and_register base_dir module_dir module_name st with
    | (Return _, st') => (Done, st')
    | (Raise e, st') =>
        if is_Exception e then
          (CommandError ("An error occurred while creating the module: " +:+ str_exn e), st')
        else (Uncaught e, st')
    end.

End Command.

(** ** Vocabulary of the statements *)

(** [app_dir] of [create_app]: the directory of the module [app_name]. *)
Definition app_dir (app_name : string) : path := MODULES_DIR </> app_name.

(** The paths a template declares at [p], with the node each one denotes,
    in the order of creation. *)
Fixpoint entries (p : path) (content : entry) : list (path * node) :=
  match content with
  | Text text => [(p, File text)]
  | Dict items => (p, Dir) :: flat_map (fun item => entries (p </> item.1) item.2) items
  end.

(** The lines [_create_structure] prints for a template at the path [rel]
    below [MODULES_DIR]. *)
Fixpoint creation_log (rel : path) (content : entry) : list string :=
  match content with
  | Text _ => ["   Creating: " +:+ posix rel]
  | Dict items => flat_map (fun item => creation_log (rel </> item.1) item.2) items
  end.

(** No dictionary of the template binds a name twice. *)
Fixpoint names_ok (content : entry) : bool :=
  match content with
  | Text _ => true
  | Dict items => bool_decide (NoDup items.*1) && forallb (fun item => names_ok item.2) items
  end.

(** Writing a list of nodes into a file system, first to last. *)
Definition install (es : list (path * node)) (m : fsmap) : fsmap :=
  foldl (fun acc e => <[e.1 := e.2]> acc) m es.

(** The file system after the scaffold of [app_name] was created in [m]. *)
Definition scaffolded (app_name : string) (m : fsmap) : fsmap :=
  install (entries (app_dir app_name) (Dict (get_app_structure app_name)))
          (<[MODULES_DIR := Dir]> m).

(** A file system is a tree: whatever exists lies in a directory. *)
Definition wf_fs (m : fsmap) : Prop :=
  map_Forall (fun p _ => isdir_in m (tail p) = true) m.

(** The modules root is a directory or is not there yet. *)
Definition modules_root_ok (m : fsmap) : Prop :=
  match m !! MODULES_DIR with
  | Some (File _) => False
  | _ => True
  end.

(** The Settings Document as the sequence of its lines. *)
Definition settings_lines (m : fsmap) : option (list string) :=
  match m !! SETTINGS_FILE with
  | Some (File text) => Some (splitlines text)
  | _ => None
  end.

(** A list of lines without the empty line that may end it. *)
Fixpoint strip_last_empty (l : list string) : list string :=
  match l with
  | [] => []
  | [x] => if decide (x = "") then [] else [x]
  | x :: rest => x :: strip_last_empty rest
  end.

(** How often the line [x] occurs among the lines [l]. *)
Definition occurrences (x : string) (l : list string) : nat :=
  length (filter (fun y => y = x) l).

(** What the script prints while it creates the scaffold of [app_name]. *)
Definition scaffold_log (app_name : string) : list string :=
  (nl +:+ "📦 Creating new app: " +:+ app_name)
  :: creation_log [app_name] (Dict (get_app_structure app_name))
  ++ ["✅ App structure created successfully"].

(** The errors of the specification, as the exceptions [create_app] raises. *)
Definition AlreadyExists (app_name : string) : exn :=
  AppCreationError ("App creation failed: App '" +:+ app_name +:+ "' already exists").


(** The end of a run that rejects [app_name] as no identifier. *)
Definition InvalidName (app_name : string) (st : state) : outcome unit * state :=
  (Raise (SystemExit 1),
   State (fs st)
         (stdout st ++ [nl +:+ "❌ Error: Invalid app name: " +:+ app_name;
                        "App name must be a valid Python identifier"])).

(** The text [_register_app_in_settings] writes for the lines [content]
    with the anchor at [start_index]. *)
Definition registered_text (app_name : string) (start_index : nat) (content : list string) : string :=
  join nl (insert_at (start_index + 1) (registration_entry app_name +:+ nl) content).

(** A text without a line boundary: what a line of [splitlines] is. *)
Definition no_break (s : string) : bool := all_chars (fun c => negb (is_linebreak c)) s.

(** What it means for [create_entry] to create a template: at any place
    below [MODULES_DIR] whose parent is a directory and where nothing
    exists yet, it returns, having written the nodes of the template and
    printed its log. *)
Definition creates (content : entry) : Prop :=
  names_ok content = true ->
  forall (rel : path) (m : fsmap) (out : list string),
    isdir_in m (tail (rel ++ MODULES_DIR)) = true ->
    (forall r, m !! (r ++ rel ++ MODULES_DIR) = None) ->
    create_entry (rel ++ MODULES_DIR) content (State m out) =
    (Return tt, State (install (entries (rel ++ MODULES_DIR) content) m)
                      (out ++ creation_log rel content)).

(** The three ends of a run in a tree: rejected before anything is
    written; the scaffold created and the registration failed; the scaffold
    created and the settings read (and rewritten unless the name is
    mentioned). *)
Inductive run_end (app_name : string) (st : state) : outcome unit * state -> Prop :=
| Rejected out' :
    ~ (isidentifier app_name = true /\ modules_root_ok (fs st) /\
       fs st !! app_dir app_name = None) ->
    run_end app_name st (Raise (SystemExit 1), State (fs st) out')
| Unregistered out' :
    isidentifier app_name = true -> modules_root_ok (fs st) ->
    fs st !! app_dir app_name = None ->
    (forall ls, settings_lines (fs st) = Some ls -> anchor ∉ ls) ->
    run_end app_name st (Raise (SystemExit 1), State (scaffolded app_name (fs st)) out')
| Created ls start_index out' :
    isidentifier app_name = true -> modules_root_ok (fs st) ->
    fs st !! app_dir app_name = None ->
    settings_lines (fs st) = Some ls -> index anchor ls = Some start_index ->
    run_end app_name st
      (Return tt,
       State (if any_contains app_name ls then scaffolded app_name (fs st)
              else <[SETTINGS_FILE := File (registered_text app_name start_index ls)]>
                     (scaffolded app_name (fs st)))
             out').

(** The names a template binds to dictionaries: its sub-directories. *)
Definition directories (structure : list (string * entry)) : list string :=
  omap (fun item : string * entry =>
          match item.2 with
          | Dict _ => Some item.1
          | Text _ => None
          end) structure.

(** ** Trees written below a directory *)

(** The node at the relative path [rel] among the nodes [es], which are
    listed with their paths relative to one directory, the newest first. *)
Fixpoint find_node (rel : path) (es : list (path * node)) : option node :=
  match es with
  | [] => None
  | e :: es' => if decide (e.1 = rel) then Some e.2 else find_node rel es'
  end.

(** The file system [base] with the nodes [es] written below [root]. *)
Definition overlay (root : path) (es : list (path * node)) (base : fsmap) : fsmap :=
  foldr (fun e acc => <[e.1 ++ root := e.2]> acc) base es.

(** What [mkdir(parents=True, exist_ok=True)] adds to the nodes for the
    relative path [rel]; [None] when a file is in the way. *)
Fixpoint mkdirs (rel : path) (es : list (path * node)) : option (list (path * node)) :=
  match find_node rel es with
  | Some Dir => Some es
  | Some (File _) => None
  | None =>
      match rel with
      | [] => None
      | _ :: parent =>
          match mkdirs parent es with
          | Some es' => Some ((rel, Dir) :: es')
          | None => None
          end
      end
  end.

(** What [touch] adds; [None] when the parent is no directory. *)
Definition touched (rel : path) (es : list (path * node)) : option (list (path * node)) :=
  match find_node rel es with
  | Some _ => Some es
  | None =>
      match find_node (tail rel) es with
      | Some Dir => Some ((rel, File "") :: es)
      | _ => None
      end
  end.

(** The two loops of [handle] on the nodes below the module's directory. *)
Definition structure_item (es : list (path * node)) (item : string * option string) :
    option (list (path * node)) :=
  match mkdirs (rev (Pathlib.parts item.1)) es with
  | Some es' =>
      match item.2 with
      | Some file_name =>
          touched (rev (Pathlib.parts file_name) ++ rev (Pathlib.parts item.1)) es'
      | None => Some es'
      end
  | None => None
  end.

Definition package_item (es : list (path * node)) (sub_dir : string) :
    option (list (path * node)) :=
  touched ("__init__.py" :: rev (Pathlib.parts sub_dir)) es.

Fixpoint fold_items {A : Type} (f : list (path * node) -> A -> option (list (path * node)))
    (es : list (path * node)) (items : list A) : option (list (path * node)) :=
  match items with
  | [] => Some es
  | item :: items' =>
      match f es item with
      | Some es' => fold_items f es' items'
      | None => None
      end
  end.

(** The nodes [handle] writes below the module's directory, the newest
    first: the directories and files of [structure], the markers of
    [packages], and [apps.py]. *)
Definition structure_tree : list (path * node) :=
  [ (["user.usecases.py"; "usecases"], File "");
    (["usecases"], Dir);
    (["user.services.py"; "services"], File "");
    (["services"], Dir);
    (["user.repository.py"; "repository"], File "");
    (["repository"], Dir);
    (["user.routes.py"; "routes"; "delivery"], File "");
    (["routes"; "delivery"], Dir);
    (["middlewares"; "delivery"], Dir);
    (["user.controller.py"; "handlers"; "delivery"], File "");
    (["handlers"; "delivery"], Dir);
    (["user.dtos.py"; "dtos"; "delivery"], File "");
    (["dtos"; "delivery"], Dir);
    (["delivery"], Dir);
    ([], Dir) ].

Definition package_markers : list (path * node) :=
  [ (["__init__.py"; "usecases"], File "");
    (["__init__.py"; "services"], File "");
    (["__init__.py"; "repository"], File "");
    (["__init__.py"; "routes"; "delivery"], File "");
    (["__init__.py"; "middlewares"; "delivery"], File "");
    (["__init__.py"; "handlers"; "delivery"], File "");
    (["__init__.py"; "dtos"; "delivery"], File "");
    (["__init__.py"; "delivery"], File "");
    (["__init__.py"], File "") ].

Definition module_tree (module_name : string) : list (path * node) :=
  (["apps.py"], File (Command.apps_text module_name)) :: package_markers ++ structure_tree.

(** The file system after [handle] has written the module's tree. *)
Definition module_created (module_name : string) (m : fsmap) : fsmap :=
  overlay (app_dir module_name) (module_tree module_name) (<[MODULES_DIR := Dir]> m).

(** ** Sample projects *)

Definition settings_minimal : string :=
  unlines [ "LOCAL_APPS = ["; "]" ].

Definition settings_django : string :=
  unlines [
    "DJANGO_APPS = [";
    "    'django.contrib.admin',";
    "    'django.contrib.auth',";
    "]";
    "";
    "LOCAL_APPS = [";
    "";
    "]";
    "";
    "INSTALLED_APPS = DJANGO_APPS + LOCAL_APPS"
  ].

Definition settings_no_anchor : string :=
  unlines [ "INSTALLED_APPS = ["; "]" ].

(** A project with its settings file and no modules root yet. *)
Definition project (settings : string) : state :=
  State (<[SETTINGS_FILE := File settings]> (<[["core"] := Dir]> ∅)) [].

(** A project whose modules root is there already. *)
Definition project_with_modules (settings : string) : state :=
  State (<[MODULES_DIR := Dir]> (fs (project settings))) [].


(** * Facts about the string helpers *)

Module StrFacts.






Lemma append_nil_r (s : string) : s +:+ "" = s.
Proof. induction s as [|c s IH]; simpl; [reflexivity | now rewrite IH]. Qed.

Lemma append_assoc (a b c : string) : (a +:+ b) +:+ c = a +:+ b +:+ c.
Proof. induction a as [|x a IH]; simpl; [reflexivity | now rewrite IH]. Qed.

Lemma prefix_append (a b : string) : String.prefix a (a +:+ b) = true.
Proof.
  induction a as [|x a IH]; simpl; [now destruct b|].
  destruct (ascii_dec x x); [assumption | congruence].
Qed.

Lemma contains_eq (needle hay : string) :
  contains needle hay =
  String.prefix needle hay ||
  match hay with
  | EmptyString => false
  | String _ hay' => contains needle hay'
  end.
Proof. destruct hay; reflexivity. Qed.

Lemma contains_skip (needle a b : string) :
  contains needle b = true -> contains needle (a +:+ b) = true.
Proof.
  intros H. induction a as [|x a IH]; [assumption|].
  change (String x a +:+ b) with (String x (a +:+ b)).
  rewrite contains_eq, IH. apply orb_true_r.
Qed.

Lemma contains_of_prefix (needle hay : string) :
  String.prefix needle hay = true -> contains needle hay = true.
Proof. intros H. rewrite contains_eq, H. reflexivity. Qed.

Lemma contains_prefix (needle b : string) : contains needle (needle +:+ b) = true.
Proof. apply contains_of_prefix, prefix_append. Qed.

(** The registration entry of a module mentions its name. *)
Lemma contains_middle (a needle b : string) : contains needle (a +:+ needle +:+ b) = true.
Proof. apply contains_skip, contains_prefix. Qed.

Lemma splitlines_no_break_bounded (n : nat) :
  forall s, (String.length s <= n)%nat -> Forall (fun l => no_break l = true) (splitlines s).
Proof.
  induction n as [|n IH]; intros [|c s] Hlen; simpl in *; try constructor; try lia.
  destruct (is_linebreak c) eqn:Hc.
  - destruct s as [|c' s']; [repeat constructor|].
    destruct (is_cr c && is_lf c'); constructor; try reflexivity; apply IH; simpl in *; lia.
  - assert (Hs := IH s ltac:(lia)).
    destruct (splitlines s) as [|l ls]; constructor; unfold no_break in *; simpl.
    + now rewrite Hc.
    + constructor.
    + inversion Hs; subst. rewrite Hc. simpl. assumption.
    + now inversion Hs.
Qed.

Lemma splitlines_no_break (s : string) : Forall (fun l => no_break l = true) (splitlines s).
Proof. now apply (splitlines_no_break_bounded (String.length s)). Qed.

Lemma splitlines_cons (c : ascii) (s : string) :
  is_linebreak c = false ->
  splitlines (String c s) =
  match splitlines s with
  | [] => [String c ""]
  | l :: ls => String c l :: ls
  end.
Proof. intros Hc. cbn [splitlines]. now rewrite Hc. Qed.

Lemma splitlines_line (x rest : string) :
  no_break x = true -> splitlines (x +:+ nl +:+ rest) = x :: splitlines rest.
Proof.
  induction x as [|c x IH]; intros Hx.
  - destruct rest; reflexivity.
  - unfold no_break in Hx. simpl in Hx. apply andb_prop in Hx as [Hc Hx].
    apply negb_true_iff in Hc.
    change (String c x +:+ nl +:+ rest) with (String c (x +:+ nl +:+ rest)).
    rewrite (splitlines_cons _ _ Hc), (IH Hx). reflexivity.
Qed.

Lemma splitlines_single (x : string) :
  no_break x = true -> splitlines x = if decide (x = "") then [] else [x].
Proof.
  induction x as [|c x IH]; intros Hx; [reflexivity|].
  unfold no_break in Hx. simpl in Hx. apply andb_prop in Hx as [Hc Hx].
  apply negb_true_iff in Hc. rewrite (splitlines_cons _ _ Hc), (IH Hx).
  destruct (decide (x = "")) as [->|]; reflexivity.
Qed.

(** Reading back what was written line-joined gives the lines again, up
    to an empty last line. *)
Lemma splitlines_join (ls : list string) :
  Forall (fun l => no_break l = true) ls ->
  splitlines (join nl ls) = strip_last_empty ls.
Proof.
  induction ls as [|x [|y ls] IH]; intros Hls.
  - reflexivity.
  - apply splitlines_single. now inversion Hls.
  - inversion Hls as [|? ? Hx Hrest]; subst.
    change (join nl (x :: y :: ls)) with (x +:+ nl +:+ join nl (y :: ls)).
    rewrite (splitlines_line _ _ Hx), (IH Hrest). reflexivity.
Qed.

(** An element that carries its own newline counts as a line and an
    empty line after it. *)
Lemma join_entry_nl (pre post : list string) (e : string) :
  join nl (pre ++ (e +:+ nl) :: post) = join nl (pre ++ e :: "" :: post).
Proof.
  induction pre as [|x [|y pre] IH].
  - destruct post as [|y post]; simpl.
    + reflexivity.
    + now rewrite append_assoc.
  - simpl in *. now rewrite IH.
  - change (join nl ((x :: y :: pre) ++ ?l)) with (x +:+ nl +:+ join nl ((y :: pre) ++ l)).
    now rewrite IH.
Qed.

(** *** Line breaks in names and in the registration entry *)

Lemma no_break_append (a b : string) : no_break (a +:+ b) = no_break a && no_break b.
Proof.
  unfold no_break. induction a as [|c a IH]; [reflexivity|].
  change (String c a +:+ b) with (String c (a +:+ b)). simpl.
  now rewrite IH, andb_assoc.
Qed.

Lemma id_char_no_break (c : ascii) : is_id_continue c = true -> is_linebreak c = false.
Proof. destruct c as [[] [] [] [] [] [] [] []]; vm_compute; congruence. Qed.

Lemma to_lower_no_break (c : ascii) : is_linebreak c = false -> is_linebreak (to_lower c) = false.
Proof. destruct c as [[] [] [] [] [] [] [] []]; vm_compute; congruence. Qed.

Lemma to_upper_no_break (c : ascii) : is_linebreak c = false -> is_linebreak (to_upper c) = false.
Proof. destruct c as [[] [] [] [] [] [] [] []]; vm_compute; congruence. Qed.

Lemma id_start_continue (c : ascii) : is_id_start c = true -> is_id_continue c = true.
Proof. unfold is_id_continue. now intros ->. Qed.

Lemma identifier_no_break (s : string) : isidentifier s = true -> no_break s = true.
Proof.
  destruct s as [|c s]; [discriminate|]. simpl. intros H.
  apply andb_prop in H as [Hc Hs]. unfold no_break. simpl.
  rewrite (id_char_no_break _ (id_start_continue _ Hc)). simpl.
  induction s as [|d s IH]; [reflexivity|]. simpl in *.
  apply andb_prop in Hs as [Hd Hs]. now rewrite (id_char_no_break _ Hd), IH.
Qed.

Lemma lower_no_break (s : string) : no_break s = true -> no_break (lower s) = true.
Proof.
  unfold no_break, lower. induction s as [|c s IH]; [reflexivity|]. simpl. intros H.
  apply andb_prop in H as [Hc Hs]. apply negb_true_iff in Hc.
  now rewrite (to_lower_no_break _ Hc), IH.
Qed.

Lemma capitalize_no_break (s : string) : no_break s = true -> no_break (capitalize s) = true.
Proof.
  destruct s as [|c s]; [reflexivity|]. unfold no_break. simpl. intros H.
  apply andb_prop in H as [Hc Hs]. apply negb_true_iff in Hc.
  rewrite (to_upper_no_break _ Hc). simpl. now apply lower_no_break.
Qed.

Lemma registration_entry_no_break (n : string) :
  isidentifier n = true -> no_break (registration_entry n) = true.
Proof.
  intros Hn. apply identifier_no_break in Hn. unfold registration_entry.
  rewrite !no_break_append, Hn, (capitalize_no_break _ Hn). reflexivity.
Qed.

Lemma registration_entry_mentions (n : string) : contains n (registration_entry n) = true.
Proof. apply contains_middle. Qed.

Lemma registration_entry_nonempty (n : string) : registration_entry n ≠ "".
Proof. discriminate. Qed.

(** *** Searching the lines *)

Lemma index_elem (x : string) (l : list string) : x ∈ l -> is_Some (index x l).
Proof.
  induction l as [|y l IH]; intros Hx; [inversion Hx|]. simpl.
  destruct (String.eqb_spec y x) as [->|Hne]; [eauto|].
  apply elem_of_cons in Hx as [->|Hx]; [congruence|].
  destruct (IH Hx) as [i ->]. simpl. eauto.
Qed.


Lemma index_lookup (x : string) (l : list string) (i : nat) :
  index x l = Some i -> l !! i = Some x.
Proof.
  revert i. induction l as [|y l IH]; intros i; simpl; [discriminate|].
  destruct (String.eqb_spec y x) as [->|_].
  - now intros [= <-].
  - destruct (index x l) as [j|]; [|discriminate]. intros [= <-]. now apply IH.
Qed.

Lemma any_contains_false (needle : string) (l : list string) (line : string) :
  any_contains needle l = false -> line ∈ l -> contains needle line = false.
Proof.
  unfold any_contains. induction l as [|y l IH]; intros H Hin; [inversion Hin|].
  simpl in H. apply orb_false_elim in H as [Hy Hl].
  apply elem_of_cons in Hin as [->|Hin]; [assumption | now apply IH].
Qed.

(** A module that no line mentions is not registered. *)
Lemma unmentioned_not_registered (n : string) (l : list string) :
  any_contains n l = false -> registration_entry n ∉ l.
Proof.
  intros H Hin. apply (any_contains_false _ _ _ H) in Hin.
  now rewrite registration_entry_mentions in Hin.
Qed.

(** *** The rewritten document *)

(** The lines of the document that [_register_app_in_settings] writes:
    the lines it read, with the entry and an empty line after the anchor. *)
Lemma registered_lines (n : string) (i : nat) (ls : list string) :
  isidentifier n = true ->
  Forall (fun l => no_break l = true) ls ->
  splitlines (registered_text n i ls) =
  strip_last_empty (take (i + 1) ls ++ registration_entry n :: "" :: drop (i + 1) ls).
Proof.
  intros Hn Hls. unfold registered_text, insert_at.
  rewrite join_entry_nl. apply splitlines_join.
  apply Forall_app. split; [now apply Forall_take|].
  repeat apply Forall_cons_2; [now apply registration_entry_no_break | reflexivity |].
  now apply Forall_drop.
Qed.

Lemma occurrences_app (x : string) (l l' : list string) :
  occurrences x (l ++ l') = (occurrences x l + occurrences x l')%nat.
Proof. unfold occurrences. now rewrite filter_app, length_app. Qed.

Lemma occurrences_not_elem (x : string) (l : list string) : x ∉ l -> occurrences x l = 0%nat.
Proof.
  unfold occurrences. induction l as [|y l IH]; intros Hx; [reflexivity|].
  apply not_elem_of_cons in Hx as [Hne Hx].
  rewrite filter_cons_False by congruence. now apply IH.
Qed.

Lemma occurrences_cons (x y : string) (l : list string) :
  occurrences x (y :: l) = ((if decide (y = x) then 1 else 0) + occurrences x l)%nat.
Proof. unfold occurrences. rewrite filter_cons. now destruct (decide (y = x)). Qed.

Lemma occurrences_strip (x : string) (l : list string) :
  x ≠ "" -> occurrences x (strip_last_empty l) = occurrences x l.
Proof.
  intros Hx. induction l as [|y [|z l] IH]; [reflexivity| |].
  - simpl. destruct (decide (y = "")) as [->|]; [|reflexivity].
    rewrite occurrences_cons, decide_False by congruence. reflexivity.
  - change (strip_last_empty (y :: z :: l)) with (y :: strip_last_empty (z :: l)).
    now rewrite !(occurrences_cons _ y), IH.
Qed.

(** After the registration the entry is in the document once. *)
Lemma registered_once (n : string) (i : nat) (ls : list string) :
  isidentifier n = true ->
  Forall (fun l => no_break l = true) ls ->
  any_contains n ls = false ->
  occurrences (registration_entry n) (splitlines (registered_text n i ls)) = 1%nat.
Proof.
  intros Hn Hls Hany. rewrite registered_lines by assumption.
  rewrite occurrences_strip by apply registration_entry_nonempty.
  assert (Hnot := unmentioned_not_registered _ _ Hany).
  assert (H0 : occurrences (registration_entry n) ls = 0%nat) by now apply occurrences_not_elem.
  rewrite <- (take_drop (i + 1) ls), occurrences_app in H0.
  rewrite occurrences_app, !occurrences_cons, decide_True by reflexivity.
  rewrite decide_False by (apply not_eq_sym, registration_entry_nonempty). lia.
Qed.
End StrFacts.

(** * Running computations *)

Section Run.
Context {A B : Type}.

Lemma bind_return (m : M A) (k : A -> M B) st a st' :
  m st = (Return a, st') -> (m ≫= k) st = k a st'.
Proof. intros H. unfold mbind, M_bind. now rewrite H. Qed.

Lemma bind_raise (m : M A) (k : A -> M B) st e st' :
  m st = (Raise e, st') -> (m ≫= k) st = (Raise e, st').
Proof. intros H. unfold mbind, M_bind. now rewrite H. Qed.

Lemma try_return (body : M A) (handler : exn -> M A) st a st' :
  body st = (Return a, st') -> try_except body handler st = (Return a, st').
Proof. intros H. unfold try_except. now rewrite H. Qed.

Lemma try_raise (body : M A) (handler : exn -> M A) st e st' r :
  body st = (Raise e, st') -> is_Exception e = true -> handler e st' = r ->
  try_except body handler st = r.
Proof. intros H He <-. unfold try_except. now rewrite H, He. Qed.

(** Once the first part of a guarded block has returned, the block goes
    on from the state that part left. *)
Lemma try_bind_return (m : M A) (k : A -> M B) (handler : exn -> M B) st a st' :
  m st = (Return a, st') ->
  try_except (m ≫= k) handler st = try_except (k a) handler st'.
Proof. intros H. unfold try_except. now rewrite (bind_return _ _ _ _ _ H). Qed.
End Run.

(** * Paths *)

Lemma app_ne (r p : path) : r ≠ [] -> r ++ p ≠ p.
Proof.
  intros Hr H. apply (f_equal length) in H. rewrite length_app in H.
  destruct r; [congruence | simpl in H; lia].
Qed.

Lemma app_cons_ne (r : path) (name : string) (p : path) : r ++ name :: p ≠ p.
Proof. intros H. apply (f_equal length) in H. rewrite length_app in H. simpl in H. lia. Qed.

Lemma app_cons_inj (r r' : path) (name name' : string) (p : path) :
  r ++ name :: p = r' ++ name' :: p -> r = r' /\ name = name'.
Proof.
  intros H.
  change (r ++ [name] ++ p = r' ++ [name'] ++ p) in H.
  rewrite !app_assoc in H. apply app_inv_tail in H.
  now apply app_inj_tail in H.
Qed.

Lemma relative_to_eq (p base : path) :
  relative_to p base =
  if decide (p = base) then Some []
  else match p with
       | [] => None
       | name :: parent => (name ::.) <$> relative_to parent base
       end.
Proof. destruct p; reflexivity. Qed.

Lemma relative_to_app (rel base : path) : relative_to (rel ++ base) base = Some rel.
Proof.
  induction rel as [|name rel IH]; rewrite relative_to_eq.
  - now rewrite decide_True.
  - rewrite decide_False by now apply app_ne.
    simpl. now rewrite IH.
Qed.

(** * The file system *)

Lemma lookup_node_cons (m : fsmap) (name : string) (p : path) :
  lookup_node m (name :: p) = m !! (name :: p).
Proof. reflexivity. Qed.

Lemma isdir_in_Some (m : fsmap) (p : path) :
  p ≠ [] -> m !! p = Some Dir -> isdir_in m p = true.
Proof. intros Hp H. destruct p; [congruence|]. unfold isdir_in. simpl. now rewrite H. Qed.

Lemma isdir_in_exists (m : fsmap) (p : path) : isdir_in m p = true -> exists_in m p = true.
Proof. unfold isdir_in, exists_in. now destruct (lookup_node m p) as [[]|]. Qed.

Lemma isdir_in_lookup (m : fsmap) (p : path) : isdir_in m p = true -> lookup_node m p = Some Dir.
Proof. unfold isdir_in. now destruct (lookup_node m p) as [[]|]. Qed.

Lemma mkdir_fresh (p : path) (m : fsmap) out :
  p ≠ [] -> isdir_in m (tail p) = true -> m !! p = None ->
  mkdir p (State m out) = (Return tt, State (<[p := Dir]> m) out).
Proof.
  intros Hp Hparent Hfresh. destruct p as [|name parent]; [congruence|].
  unfold mkdir, exists_in. simpl in *. rewrite Hfresh.
  now rewrite (isdir_in_lookup _ _ Hparent).
Qed.

Lemma makedirs_fresh (p : path) (m : fsmap) out :
  p ≠ [] -> isdir_in m (tail p) = true -> m !! p = None ->
  makedirs p (State m out) = (Return tt, State (<[p := Dir]> m) out).
Proof.
  intros Hp Hparent Hfresh. destruct p as [|name parent]; [congruence|].
  simpl in Hparent. cbn [makedirs].
  erewrite bind_return; cycle 1.
  { erewrite bind_return by reflexivity. simpl.
    rewrite (isdir_in_exists _ _ Hparent). reflexivity. }
  apply try_return. now apply mkdir_fresh.
Qed.

Lemma write_text_fresh (p : path) (text : string) (m : fsmap) out :
  p ≠ [] -> isdir_in m (tail p) = true -> m !! p = None ->
  write_text p text (State m out) = (Return tt, State (<[p := File text]> m) out).
Proof.
  intros Hp Hparent Hfresh. destruct p as [|name parent]; [congruence|].
  unfold write_text. simpl in *. now rewrite (isdir_in_lookup _ _ Hparent), Hfresh.
Qed.

(** * Templates *)

Lemma entry_ind' (P : entry -> Prop) :
  (forall text, P (Text text)) ->
  (forall items, Forall (fun item => P item.2) items -> P (Dict items)) ->
  forall content, P content.
Proof.
  intros HText HDict. fix IH 1. intros [text|items].
  - apply HText.
  - apply HDict. induction items as [|item items IHitems]; constructor.
    + apply IH.
    + apply IHitems.
Qed.

Lemma install_app (es es' : list (path * node)) (m : fsmap) :
  install (es ++ es') m = install es' (install es m).
Proof. unfold install. apply foldl_app. Qed.

Lemma lookup_install_notin (es : list (path * node)) (m : fsmap) (q : path) :
  q ∉ es.*1 -> install es m !! q = m !! q.
Proof.
  revert m. induction es as [|[k x] es IH]; intros m Hq; [reflexivity|].
  simpl in *. apply not_elem_of_cons in Hq as [Hne Hq].
  rewrite (IH _ Hq). now apply lookup_insert_ne.
Qed.

Lemma lookup_install_in (es : list (path * node)) (m : fsmap) (q : path) (x : node) :
  NoDup es.*1 -> (q, x) ∈ es -> install es m !! q = Some x.
Proof.
  revert m. induction es as [|[k y] es IH]; intros m Hnd Hin.
  - inversion Hin.
  - simpl in *. apply NoDup_cons in Hnd as [Hk Hnd].
    apply elem_of_cons in Hin as [Heq|Hin].
    + injection Heq as -> ->. rewrite (lookup_install_notin _ _ _ Hk).
      apply lookup_insert_eq.
    + now apply IH.
Qed.

(** Every path of a template lies at or below the place of the template. *)
Lemma entries_below (content : entry) :
  forall (p q : path), q ∈ (entries p content).*1 -> exists r, q = r ++ p.
Proof.
  induction content as [text|items IH] using entry_ind'; intros p q Hq; simpl in Hq.
  - apply list_elem_of_singleton in Hq as ->. now exists [].
  - apply elem_of_cons in Hq as [->|Hq]; [now exists []|].
    induction items as [|[name c] items IHitems]; simpl in Hq; [inversion Hq|].
    apply Forall_cons in IH as [IHc IHrest].
    rewrite fmap_app in Hq. apply elem_of_app in Hq as [Hq|Hq].
    + destruct (IHc _ _ Hq) as [r ->]. exists (r ++ [name]).
      unfold joinpath. now rewrite <- app_assoc.
    + now apply IHitems.
Qed.

(** * The template walk *)

Lemma create_text (text : string) : creates (Text text).
Proof.
  intros _ rel m out Hparent Hfresh. cbn [create_entry].
  unfold relative_to_modules. rewrite relative_to_app.
  erewrite bind_return by reflexivity.
  erewrite bind_return by reflexivity.
  rewrite write_text_fresh; [reflexivity | | assumption | apply (Hfresh [])].
  destruct rel; discriminate.
Qed.

Lemma for_each_creates (items : list (string * entry)) :
  Forall (fun item => creates item.2) items ->
  forallb (fun item => names_ok item.2) items = true ->
  NoDup items.*1 ->
  forall (rel : path) (m : fsmap) (out : list string),
    m !! (rel ++ MODULES_DIR) = Some Dir ->
    (forall name r, name ∈ items.*1 -> m !! (r ++ name :: rel ++ MODULES_DIR) = None) ->
    for_each (fun item => create_entry ((rel ++ MODULES_DIR) </> item.1) item.2) items (State m out) =
    (Return tt,
     State (install (flat_map (fun item => entries ((rel ++ MODULES_DIR) </> item.1) item.2) items) m)
           (out ++ flat_map (fun item => creation_log (rel </> item.1) item.2) items)).
Proof.
  induction items as [|[name content] items IH];
    intros Hcreates Hnames Hnodup rel m out Hdir Hfresh.
  - simpl. now rewrite app_nil_r.
  - apply Forall_cons in Hcreates as [Hcontent Hcreates].
    simpl in Hnames. apply andb_prop in Hnames as [Hname Hnames].
    simpl in Hnodup. apply NoDup_cons in Hnodup as [Hnotin Hnodup].
    cbn [for_each]. erewrite bind_return; cycle 1.
    { apply (Hcontent Hname (name :: rel)).
      - simpl. apply isdir_in_Some; [destruct rel; discriminate | assumption].
      - intros r. apply Hfresh. simpl. left. }
    cbn [flat_map]. rewrite install_app, (app_assoc out).
    apply IH; try assumption.
    + rewrite lookup_install_notin; [assumption|].
      intros Hin. apply entries_below in Hin as [r Hr].
      symmetry in Hr. now apply (app_cons_ne r name) in Hr.
    + intros name' r Hname'. rewrite lookup_install_notin.
      * apply Hfresh. simpl. now right.
      * intros Hin. apply entries_below in Hin as [r' Hr].
        apply app_cons_inj in Hr as [_ ->]. contradiction.
Qed.

(** [_create_structure] on a fresh place creates the whole template. *)
Lemma create_entry_creates (content : entry) : creates content.
Proof.
  induction content as [text|items IH] using entry_ind'; [apply create_text|].
  intros Hnames rel m out Hparent Hfresh.
  simpl in Hnames. apply andb_prop in Hnames as [Hnodup Hnames].
  apply bool_decide_eq_true in Hnodup.
  assert (Hp : rel ++ MODULES_DIR ≠ []) by (destruct rel; discriminate).
  cbn [create_entry]. apply try_return.
  erewrite bind_return by (apply makedirs_fresh; [assumption | assumption | apply (Hfresh [])]).
  rewrite for_each_creates; try assumption.
  - reflexivity.
  - apply lookup_insert_eq.
  - intros name r _. rewrite lookup_insert_ne by (symmetry; apply app_cons_ne).
    specialize (Hfresh (r ++ [name])). now rewrite <- app_assoc in Hfresh.
Qed.

(** The first [makedirs] is all that [_create_structure] sees of the state
    in which it starts. *)
Lemma create_entry_dict_start (p : path) (items : list (string * entry)) (st1 st2 : state) :
  makedirs p st1 = makedirs p st2 ->
  create_entry p (Dict items) st1 = create_entry p (Dict items) st2.
Proof.
  intros H. cbn [create_entry]. unfold try_except, mbind, M_bind. now rewrite H.
Qed.

Lemma names_ok_app_structure (app_name : string) :
  names_ok (Dict (get_app_structure app_name)) = true.
Proof. reflexivity. Qed.

Lemma modules_root_insert (m : fsmap) :
  modules_root_ok m -> m !! MODULES_DIR = Some Dir \/ m !! MODULES_DIR = None.
Proof. unfold modules_root_ok. destruct (m !! MODULES_DIR) as [[]|]; tauto. Qed.

(** In a tree the whole scaffold is created, the modules root with it when
    it was missing. *)
Lemma create_structure_scaffold (app_name : string) (m : fsmap) (out : list string) :
  modules_root_ok m ->
  (forall r, m !! (r ++ app_dir app_name) = None) ->
  _create_structure (app_dir app_name) (get_app_structure app_name) (State m out) =
  (Return tt, State (scaffolded app_name m)
                    (out ++ creation_log [app_name] (Dict (get_app_structure app_name)))).
Proof.
  intros Hroot Hfresh. unfold _create_structure, scaffolded.
  assert (Hfresh' : forall r, <[MODULES_DIR := Dir]> m !! (r ++ app_dir app_name) = None).
  { intros r. rewrite lookup_insert_ne; [apply Hfresh|].
    apply not_eq_sym, (app_cons_ne r app_name MODULES_DIR). }
  rewrite (create_entry_dict_start _ _ _ (State (<[MODULES_DIR := Dir]> m) out)).
  - apply (create_entry_creates _ (names_ok_app_structure app_name) [app_name]).
    + simpl. unfold isdir_in. simpl. now rewrite lookup_insert_eq.
    + assumption.
  - destruct (modules_root_insert _ Hroot) as [Hdir|Hnone].
    + now rewrite (insert_id _ _ _ Hdir).
    + rewrite (makedirs_fresh (app_dir app_name) (<[MODULES_DIR := Dir]> m));
        [ | discriminate | unfold isdir_in; simpl; now rewrite lookup_insert_eq | apply (Hfresh' [])].
      unfold app_dir, joinpath. cbn [makedirs].
      erewrite bind_return; cycle 1.
      { erewrite bind_return by reflexivity.
        unfold exists_in. simpl. rewrite Hnone.
        apply try_return. apply (makedirs_fresh MODULES_DIR); [discriminate | reflexivity | assumption]. }
      apply try_return. apply mkdir_fresh; [discriminate | | ].
      * unfold isdir_in. simpl. now rewrite lookup_insert_eq.
      * apply (Hfresh' []).
Qed.

(** In a tree nothing lies below a path that does not exist. *)
Lemma wf_fs_fresh (m : fsmap) (p : path) :
  wf_fs m -> p ≠ [] -> m !! p = None -> forall r, m !! (r ++ p) = None.
Proof.
  intros Hwf Hp Hnone r. induction r as [|name r IH]; [assumption|].
  destruct (m !! ((name :: r) ++ p)) as [x|] eqn:Hx; [|reflexivity].
  apply Hwf in Hx. simpl in Hx. apply isdir_in_lookup in Hx.
  destruct (r ++ p) eqn:E; [destruct r; simpl in E; congruence|].
  simpl in Hx. congruence.
Qed.

(** * The scaffold in the file system *)

Lemma flat_entries_below (p : path) (items : list (string * entry)) (q : path) :
  q ∈ (flat_map (fun item => entries (p </> item.1) item.2) items).*1 ->
  exists name r, name ∈ items.*1 /\ q = r ++ name :: p.
Proof.
  induction items as [|[name content] items IH]; simpl; intros Hq; [inversion Hq|].
  rewrite fmap_app in Hq. apply elem_of_app in Hq as [Hq|Hq].
  - apply entries_below in Hq as [r ->]. exists name, r. split; [left | reflexivity].
  - destruct (IH Hq) as (name' & r & Hin & ->). exists name', r. split; [now right | reflexivity].
Qed.

(** A template whose dictionaries bind each name once declares each path
    once. *)
Lemma entries_nodup (content : entry) :
  names_ok content = true -> forall p, NoDup (entries p content).*1.
Proof.
  induction content as [text|items IH] using entry_ind'; intros Hnames p; simpl.
  - apply NoDup_singleton.
  - simpl in Hnames. apply andb_prop in Hnames as [Hnodup Hnames].
    apply bool_decide_eq_true in Hnodup. apply NoDup_cons. split.
    + intros Hin. apply flat_entries_below in Hin as (name & r & _ & Hr).
      symmetry in Hr. now apply app_cons_ne in Hr.
    + induction items as [|[name content] items IHitems]; simpl; [constructor|].
      apply Forall_cons in IH as [IHcontent IH].
      simpl in Hnames. apply andb_prop in Hnames as [Hname Hnames].
      simpl in Hnodup. apply NoDup_cons in Hnodup as [Hnotin Hnodup].
      rewrite fmap_app. apply NoDup_app. split; [now apply IHcontent|]. split.
      * intros q Hq Hq'. apply entries_below in Hq as [r ->].
        apply flat_entries_below in Hq' as (name' & r' & Hin & Hr).
        apply app_cons_inj in Hr as [_ ->]. contradiction.
      * now apply IHitems.
Qed.

Lemma scaffolded_entry (app_name : string) (m : fsmap) (q : path) (x : node) :
  (q, x) ∈ entries (app_dir app_name) (Dict (get_app_structure app_name)) ->
  scaffolded app_name m !! q = Some x.
Proof.
  intros Hin. apply lookup_install_in; [|assumption].
  apply entries_nodup, names_ok_app_structure.
Qed.

(** The scaffold touches the modules root and the module's directory, and
    nothing else. *)
Lemma scaffolded_outside (app_name : string) (m : fsmap) (q : path) :
  q ≠ MODULES_DIR -> (forall r, q ≠ r ++ app_dir app_name) ->
  scaffolded app_name m !! q = m !! q.
Proof.
  intros Hroot Hout. unfold scaffolded. rewrite lookup_install_notin.
  - now apply lookup_insert_ne.
  - intros Hin. apply entries_below in Hin as [r ->]. now apply (Hout r).
Qed.

Lemma scaffolded_below (app_name : string) (m : fsmap) (r : path) (x : node) :
  (forall r, m !! (r ++ app_dir app_name) = None) ->
  scaffolded app_name m !! (r ++ app_dir app_name) = Some x ->
  (r ++ app_dir app_name, x) ∈ entries (app_dir app_name) (Dict (get_app_structure app_name)).
Proof.
  intros Hfresh Hx.
  destruct (decide (r ++ app_dir app_name ∈
                    (entries (app_dir app_name) (Dict (get_app_structure app_name))).*1))
    as [Hin|Hnotin].
  - apply list_elem_of_fmap in Hin as ([q y] & Hq & Hin). simpl in Hq. subst q.
    rewrite (scaffolded_entry _ _ _ _ Hin) in Hx. now injection Hx as ->.
  - unfold scaffolded in Hx. rewrite (lookup_install_notin _ _ _ Hnotin) in Hx.
    rewrite lookup_insert_ne in Hx by apply not_eq_sym, (app_cons_ne r app_name MODULES_DIR).
    now rewrite Hfresh in Hx.
Qed.

Lemma settings_not_below (app_name : string) (r : path) : SETTINGS_FILE ≠ r ++ app_dir app_name.
Proof.
  unfold SETTINGS_FILE, app_dir, MODULES_DIR, BASE_DIR, joinpath.
  destruct r as [|a [|b [|c r]]]; simpl; congruence.
Qed.

Lemma core_not_below (app_name : string) (r : path) : ["core"] ≠ r ++ app_dir app_name.
Proof.
  unfold app_dir, MODULES_DIR, BASE_DIR, joinpath.
  destruct r as [|a [|b r]]; simpl; congruence.
Qed.

Lemma scaffolded_settings (app_name : string) (m : fsmap) :
  scaffolded app_name m !! SETTINGS_FILE = m !! SETTINGS_FILE.
Proof. apply scaffolded_outside; [discriminate | apply settings_not_below]. Qed.

Lemma scaffolded_core (app_name : string) (m : fsmap) :
  scaffolded app_name m !! ["core"] = m !! ["core"].
Proof. apply scaffolded_outside; [discriminate | apply core_not_below]. Qed.

Lemma scaffolded_app_dir (app_name : string) (m : fsmap) :
  scaffolded app_name m !! app_dir app_name = Some Dir.
Proof. apply scaffolded_entry. simpl. left. Qed.

(** * Registration in the settings *)

Lemma lookup_node_ne (m : fsmap) (p : path) : p ≠ [] -> lookup_node m p = m !! p.
Proof. now destruct p. Qed.

Lemma path_exists_run (p : path) (m : fsmap) (out : list string) :
  p ≠ [] ->
  path_exists p (State m out) =
  (Return (match m !! p with Some _ => true | None => false end), State m out).
Proof. intros Hp. unfold path_exists, exists_in. simpl. now rewrite lookup_node_ne. Qed.

Lemma read_text_run (p : path) (m : fsmap) (out : list string) :
  p ≠ [] ->
  read_text p (State m out) =
  match m !! p with
  | Some (File text) => (Return text, State m out)
  | Some Dir => (Raise (IsADirectoryError p), State m out)
  | None => (Raise (FileNotFoundError p), State m out)
  end.
Proof. intros Hp. unfold read_text. simpl. now rewrite lookup_node_ne. Qed.

Lemma write_text_over (p : path) (text old : string) (m : fsmap) (out : list string) :
  p ≠ [] -> isdir_in m (tail p) = true -> m !! p = Some (File old) ->
  write_text p text (State m out) = (Return tt, State (<[p := File text]> m) out).
Proof.
  intros Hp Hparent Hold. destruct p as [|name parent]; [congruence|].
  unfold write_text. simpl in *. now rewrite (isdir_in_lookup _ _ Hparent), Hold.
Qed.

Section Register.
Variables (app_name : string) (m : fsmap) (out : list string).

Let failed (msg : string) : outcome unit * state :=
  (Raise (AppCreationError ("App registration failed: " +:+ msg)),
   State m (out ++ [nl +:+ "❌ Error: Failed to register app in settings: " +:+ msg])).

Lemma register_no_settings :
  m !! SETTINGS_FILE = None ->
  _register_app_in_settings app_name (State m out) = failed "settings.py not found".
Proof.
  intros H. unfold _register_app_in_settings.
  eapply try_raise.
  {
    erewrite bind_return by (apply path_exists_run; discriminate).
    now rewrite H.
  }
  all: reflexivity.
Qed.

Lemma register_settings_dir :
  m !! SETTINGS_FILE = Some Dir ->
  _register_app_in_settings app_name (State m out) =
  failed (str_exn (IsADirectoryError SETTINGS_FILE)).
Proof.
  intros H. unfold _register_app_in_settings.
  eapply try_raise.
  {
    erewrite bind_return by (apply path_exists_run; discriminate).
    rewrite H. cbv beta iota delta [negb].
    erewrite bind_raise; [reflexivity|].
    rewrite read_text_run by discriminate. now rewrite H.
  }
  all: reflexivity.
Qed.

Lemma register_no_anchor (text : string) :
  m !! SETTINGS_FILE = Some (File text) ->
  index anchor (splitlines text) = None ->
  _register_app_in_settings app_name (State m out) =
  failed "LOCAL_APPS section not found in settings.py".
Proof.
  intros H Hindex. unfold _register_app_in_settings.
  eapply try_raise.
  {
    erewrite bind_return by (apply path_exists_run; discriminate).
    rewrite H. cbv beta iota delta [negb].
    erewrite bind_return by (rewrite read_text_run by discriminate; now rewrite H).
    cbv zeta. now rewrite Hindex.
  }
  all: reflexivity.
Qed.

Lemma register_mentioned (text : string) (start_index : nat) :
  m !! SETTINGS_FILE = Some (File text) ->
  index anchor (splitlines text) = Some start_index ->
  any_contains app_name (splitlines text) = true ->
  _register_app_in_settings app_name (State m out) =
  (Return tt,
   State m (out ++ [nl +:+ "⚠️  Warning: App '" +:+ app_name
                       +:+ "' is already registered in settings.py"])).
Proof.
  intros H Hindex Hany. unfold _register_app_in_settings.
  apply try_return.
  erewrite bind_return by (apply path_exists_run; discriminate).
  rewrite H. cbv beta iota delta [negb].
  erewrite bind_return by (rewrite read_text_run by discriminate; now rewrite H).
  cbv zeta. now rewrite Hindex, Hany.
Qed.

Lemma register_inserts (text : string) (start_index : nat) :
  m !! SETTINGS_FILE = Some (File text) ->
  m !! ["core"] = Some Dir ->
  index anchor (splitlines text) = Some start_index ->
  any_contains app_name (splitlines text) = false ->
  _register_app_in_settings app_name (State m out) =
  (Return tt,
   State (<[SETTINGS_FILE := File (registered_text app_name start_index (splitlines text))]> m)
         out).
Proof.
  intros H Hcore Hindex Hany. unfold _register_app_in_settings.
  apply try_return.
  erewrite bind_return by (apply path_exists_run; discriminate).
  rewrite H. cbv beta iota delta [negb].
  erewrite bind_return by (rewrite read_text_run by discriminate; now rewrite H).
  cbv zeta. rewrite Hindex, Hany.
  apply (write_text_over _ _ text); [discriminate | | assumption].
  apply isdir_in_Some; [discriminate | assumption].
Qed.
End Register.

(** * [create_app] *)

Lemma create_app_exists (app_name : string) (m : fsmap) (out : list string) :
  is_Some (m !! app_dir app_name) ->
  create_app app_name (State m out) =
  (Raise (AlreadyExists app_name),
   State m (out ++ [nl +:+ "❌ Error: Failed to create app: App '" +:+ app_name
                       +:+ "' already exists"])).
Proof.
  intros [x Hx]. unfold create_app. eapply try_raise.
  { erewrite bind_return by (apply path_exists_run; discriminate).
    fold (app_dir app_name). rewrite Hx. reflexivity. }
  all: reflexivity.
Qed.

(** With the scaffold created, [create_app] goes on to the registration. *)
Lemma create_app_scaffold (app_name : string) (m : fsmap) (out : list string) :
  modules_root_ok m ->
  (forall r, m !! (r ++ app_dir app_name) = None) ->
  create_app app_name (State m out) =
  try_except
    (_register_app_in_settings app_name ;; print "✅ App registered in settings.py")
    (fun e =>
       print (nl +:+ "❌ Error: Failed to create app: " +:+ str_exn e) ;;
       raise (AppCreationError ("App creation failed: " +:+ str_exn e)))
    (State (scaffolded app_name m) (out ++ scaffold_log app_name)).
Proof.
  intros Hroot Hfresh. unfold create_app.
  erewrite try_bind_return; cycle 1.
  { rewrite path_exists_run by discriminate.
    fold (app_dir app_name). specialize (Hfresh []). simpl in Hfresh. now rewrite Hfresh. }
  cbv beta iota.
  erewrite try_bind_return by reflexivity.
  erewrite try_bind_return by (apply create_structure_scaffold; assumption).
  erewrite try_bind_return by reflexivity.
  unfold scaffold_log. simpl. now rewrite <- !app_assoc.
Qed.

Lemma for_each_print (l : list string) (m : fsmap) (out : list string) :
  for_each print l (State m out) = (Return tt, State m (out ++ l)).
Proof.
  revert out. induction l as [|x l IH]; intros out; simpl.
  - now rewrite app_nil_r.
  - erewrite bind_return by reflexivity. simpl. rewrite IH. now rewrite <- app_assoc.
Qed.

Section Finish.
Variables (app_name : string) (st2 st3 : state).

Let finish : M unit :=
  try_except
    (_register_app_in_settings app_name ;; print "✅ App registered in settings.py")
    (fun e =>
       print (nl +:+ "❌ Error: Failed to create app: " +:+ str_exn e) ;;
       raise (AppCreationError ("App creation failed: " +:+ str_exn e))).

Lemma finish_return :
  _register_app_in_settings app_name st2 = (Return tt, st3) ->
  finish st2 =
  (Return tt, State (fs st3) (stdout st3 ++ ["✅ App registered in settings.py"])).
Proof. intros H. apply try_return. now erewrite bind_return by exact H. Qed.

Lemma finish_raise (msg : string) :
  _register_app_in_settings app_name st2 = (Raise (AppCreationError msg), st3) ->
  finish st2 =
  (Raise (AppCreationError ("App creation failed: " +:+ msg)),
   State (fs st3) (stdout st3 ++ [nl +:+ "❌ Error: Failed to create app: " +:+ msg])).
Proof.
  intros H. eapply try_raise.
  { now erewrite bind_raise by exact H. }
  all: reflexivity.
Qed.
End Finish.

Lemma makedirs_under_file (name : string) (parent : path) (text : string)
    (m : fsmap) (out : list string) :
  parent ≠ [] -> m !! parent = Some (File text) -> m !! (name :: parent) = None ->
  makedirs (name :: parent) (State m out) =
  (Raise (NotADirectoryError (name :: parent)), State m out).
Proof.
  intros Hp Hfile Hnone. cbn [makedirs].
  erewrite bind_return; cycle 1.
  { erewrite bind_return by (now apply path_exists_run). now rewrite Hfile. }
  eapply try_raise.
  { unfold mkdir, exists_in. simpl. rewrite Hnone, (lookup_node_ne _ _ Hp), Hfile.
    reflexivity. }
  { reflexivity. }
  unfold isdir, isdir_in, mbind, M_bind. simpl. now rewrite Hnone.
Qed.

(** When the modules root is a regular file nothing can be created. *)
Lemma create_app_root_is_file (app_name text : string) (m : fsmap) (out : list string) :
  m !! app_dir app_name = None ->
  m !! MODULES_DIR = Some (File text) ->
  exists msg out',
    create_app app_name (State m out) = (Raise (AppCreationError msg), State m out').
Proof.
  intros Hnone Hfile. do 2 eexists. unfold create_app. eapply try_raise.
  { erewrite bind_return by (apply path_exists_run; discriminate).
    fold (app_dir app_name). rewrite Hnone.
    erewrite bind_return by reflexivity.
    eapply bind_raise. unfold _create_structure. cbn [create_entry].
    eapply try_raise.
    { eapply bind_raise. apply (makedirs_under_file _ _ text); [discriminate | assumption..]. }
    { reflexivity. }
    reflexivity. }
  all: reflexivity.
Qed.

(** * [CreateModule] *)

Lemma CreateModule_invalid (app_name : string) (st : state) :
  isidentifier app_name = false -> CreateModule app_name st = InvalidName app_name st.
Proof.
  intros H. unfold CreateModule, InvalidName. rewrite H. cbv beta iota delta [negb].
  do 2 (erewrite bind_return by reflexivity). unfold sys_exit, raise. simpl.
  now rewrite <- app_assoc.
Qed.

Lemma CreateModule_return (app_name : string) (st st' : state) :
  isidentifier app_name = true ->
  create_app app_name st = (Return tt, st') ->
  CreateModule app_name st =
  (Return tt, State (fs st') (stdout st' ++ success_report app_name)).
Proof.
  intros Hid H. unfold CreateModule, run_generator. rewrite Hid. cbv beta iota delta [negb].
  erewrite bind_return by exact H. destruct st' as [m' out']. now rewrite for_each_print.
Qed.

Lemma CreateModule_raise (app_name msg : string) (st st' : state) :
  isidentifier app_name = true ->
  create_app app_name st = (Raise (AppCreationError msg), st') ->
  CreateModule app_name st =
  (Raise (SystemExit 1), State (fs st') (stdout st' ++ [nl +:+ "❌ Error: " +:+ msg])).
Proof.
  intros Hid H. unfold CreateModule, run_generator. rewrite Hid. cbv beta iota delta [negb].
  now erewrite bind_raise by exact H.
Qed.

(** * Runs in a tree where the module is new *)

Lemma wf_fs_parent (m : fsmap) (name : string) (p : path) (x : node) :
  wf_fs m -> p ≠ [] -> m !! (name :: p) = Some x -> m !! p = Some Dir.
Proof.
  intros Hwf Hp Hx. apply Hwf in Hx. simpl in Hx.
  apply isdir_in_lookup in Hx. now rewrite lookup_node_ne in Hx.
Qed.

Section Fresh.
Variables (app_name : string) (m : fsmap) (out : list string).
Hypothesis Hid : isidentifier app_name = true.
Hypothesis Hwf : wf_fs m.
Hypothesis Hroot : modules_root_ok m.
Hypothesis Hnone : m !! app_dir app_name = None.

Lemma fresh_below (r : path) : m !! (r ++ app_dir app_name) = None.
Proof. apply wf_fs_fresh; [assumption | discriminate | assumption]. Qed.

Let registration_failed (msg : string) : outcome unit * state :=
  (Raise (SystemExit 1),
   State (scaffolded app_name m)
         (out ++ scaffold_log app_name ++
          [ nl +:+ "❌ Error: Failed to register app in settings: " +:+ msg;
            nl +:+ "❌ Error: Failed to create app: App registration failed: " +:+ msg;
            nl +:+ "❌ Error: App creation failed: App registration failed: " +:+ msg ])).

Lemma create_app_registration_raises (msg : string) (st3 : state) :
  _register_app_in_settings app_name
    (State (scaffolded app_name m) (out ++ scaffold_log app_name)) =
  (Raise (AppCreationError ("App registration failed: " +:+ msg)), st3) ->
  create_app app_name (State m out) =
  (Raise (AppCreationError ("App creation failed: App registration failed: " +:+ msg)),
   State (fs st3)
         (stdout st3 ++
          [nl +:+ "❌ Error: Failed to create app: App registration failed: " +:+ msg])).
Proof.
  intros H. rewrite (create_app_scaffold _ _ _ Hroot fresh_below).
  now rewrite (finish_raise _ _ _ _ H).
Qed.

Lemma CreateModule_registration_raises (msg : string) :
  _register_app_in_settings app_name
    (State (scaffolded app_name m) (out ++ scaffold_log app_name)) =
  (Raise (AppCreationError ("App registration failed: " +:+ msg)),
   State (scaffolded app_name m)
         (out ++ scaffold_log app_name ++
          [nl +:+ "❌ Error: Failed to register app in settings: " +:+ msg])) ->
  CreateModule app_name (State m out) = registration_failed msg.
Proof.
  intros H. rewrite (CreateModule_raise _ _ _ _ Hid (create_app_registration_raises _ _ H)).
  unfold registration_failed. simpl. now rewrite <- !app_assoc.
Qed.

Lemma CreateModule_no_settings :
  m !! SETTINGS_FILE = None ->
  CreateModule app_name (State m out) = registration_failed "settings.py not found".
Proof.
  intros H. apply CreateModule_registration_raises.
  rewrite register_no_settings by now rewrite scaffolded_settings.
  now rewrite <- app_assoc.
Qed.

Lemma CreateModule_settings_dir :
  m !! SETTINGS_FILE = Some Dir ->
  CreateModule app_name (State m out) =
  registration_failed (str_exn (IsADirectoryError SETTINGS_FILE)).
Proof.
  intros H. apply CreateModule_registration_raises.
  rewrite register_settings_dir by now rewrite scaffolded_settings.
  now rewrite <- app_assoc.
Qed.

Lemma CreateModule_no_anchor (text : string) :
  m !! SETTINGS_FILE = Some (File text) ->
  index anchor (splitlines text) = None ->
  CreateModule app_name (State m out) =
  registration_failed "LOCAL_APPS section not found in settings.py".
Proof.
  intros H Hindex. apply CreateModule_registration_raises.
  rewrite (register_no_anchor _ _ _ text) by (now rewrite ?scaffolded_settings).
  now rewrite <- app_assoc.
Qed.


Lemma CreateModule_warns (text : string) (start_index : nat) :
  m !! SETTINGS_FILE = Some (File text) ->
  index anchor (splitlines text) = Some start_index ->
  any_contains app_name (splitlines text) = true ->
  CreateModule app_name (State m out) =
  (Return tt,
   State (scaffolded app_name m)
         (out ++ scaffold_log app_name ++
          [ nl +:+ "⚠️  Warning: App '" +:+ app_name +:+ "' is already registered in settings.py";
            "✅ App registered in settings.py" ] ++
          success_report app_name)).
Proof.
  intros H Hindex Hany. erewrite CreateModule_return; [| assumption |].
  2:{ rewrite (create_app_scaffold _ _ _ Hroot fresh_below).
      apply finish_return.
      apply (register_mentioned _ _ _ text start_index);
        [now rewrite scaffolded_settings | assumption..]. }
  simpl. now rewrite <- !app_assoc.
Qed.

Lemma CreateModule_registers (text : string) (start_index : nat) :
  m !! SETTINGS_FILE = Some (File text) ->
  index anchor (splitlines text) = Some start_index ->
  any_contains app_name (splitlines text) = false ->
  CreateModule app_name (State m out) =
  (Return tt,
   State (<[SETTINGS_FILE := File (registered_text app_name start_index (splitlines text))]>
            (scaffolded app_name m))
         (out ++ scaffold_log app_name ++
          "✅ App registered in settings.py" :: success_report app_name)).
Proof.
  intros H Hindex Hany. erewrite CreateModule_return; [| assumption |].
  2:{ rewrite (create_app_scaffold _ _ _ Hroot fresh_below).
      apply finish_return.
      apply (register_inserts _ _ _ text start_index); try assumption.
      - now rewrite scaffolded_settings.
      - rewrite scaffolded_core. apply (wf_fs_parent _ "settings.py" _ (File text) Hwf); [discriminate|].
        exact H. }
  simpl. now rewrite <- !app_assoc.
Qed.
End Fresh.

Import StrFacts.

(** * The sample projects *)

Lemma project_wf (settings : string) : wf_fs (fs (project settings)).
Proof.
  intros p x Hx. unfold project in *. simpl in *.
  apply lookup_insert_Some in Hx as [[<- _]|[_ Hx]].
  - unfold isdir_in. simpl. rewrite lookup_insert_ne by discriminate.
    now rewrite lookup_insert_eq.
  - apply lookup_insert_Some in Hx as [[<- _]|[_ Hx]]; [reflexivity|].
    now rewrite lookup_empty in Hx.
Qed.

Lemma project_with_modules_wf (settings : string) : wf_fs (fs (project_with_modules settings)).
Proof.
  intros p x Hx. unfold project_with_modules in *. simpl in *.
  apply lookup_insert_Some in Hx as [[<- _]|[Hne Hx]]; [reflexivity|].
  apply project_wf in Hx. unfold isdir_in, lookup_node in *.
  destruct (tail p) as [|name parent] eqn:E; [reflexivity|].
  destruct (decide (MODULES_DIR = name :: parent)) as [<-|Hne'].
  - now rewrite lookup_insert_eq.
  - now rewrite lookup_insert_ne.
Qed.

Lemma settings_lines_file (m : fsmap) (ls : list string) :
  settings_lines m = Some ls ->
  exists text, m !! SETTINGS_FILE = Some (File text) /\ ls = splitlines text.
Proof.
  unfold settings_lines. destruct (m !! SETTINGS_FILE) as [[|text]|]; try discriminate.
  intros [= <-]. now exists text.
Qed.

Lemma settings_lines_no_break (m : fsmap) (ls : list string) :
  settings_lines m = Some ls -> Forall (fun l => no_break l = true) ls.
Proof. intros (text & _ & ->)%settings_lines_file. apply splitlines_no_break. Qed.

(** * Successful runs *)

(** A run on a new module whose settings have the anchor returns, with the
    scaffold created and the settings either left alone (the name is
    mentioned) or rewritten. *)
Lemma CreateModule_succeeds (app_name : string) (st : state) (ls : list string) :
  isidentifier app_name = true ->
  wf_fs (fs st) ->
  modules_root_ok (fs st) ->
  fs st !! app_dir app_name = None ->
  settings_lines (fs st) = Some ls ->
  anchor ∈ ls ->
  exists start_index out',
    index anchor ls = Some start_index /\
    CreateModule app_name st =
    (Return tt,
     State (if any_contains app_name ls then scaffolded app_name (fs st)
            else <[SETTINGS_FILE := File (registered_text app_name start_index ls)]>
                   (scaffolded app_name (fs st)))
           out').
Proof.
  intros Hid Hwf Hroot Hnone (text & Htext & ->)%settings_lines_file Hanchor.
  destruct (index_elem _ _ Hanchor) as [i Hi]. destruct st as [m out]. simpl in *.
  exists i. destruct (any_contains app_name (splitlines text)) eqn:Hany; eexists; (split; [assumption|]).
  - now apply (CreateModule_warns _ _ _ Hid Hwf Hroot Hnone text i).
  - now apply (CreateModule_registers _ _ _ Hid Hwf Hroot Hnone text i).
Qed.

(** A run returns only on a new module with a valid name, below a modules
    root that is no regular file, and with the anchor in the settings. *)
Lemma CreateModule_return_inv (app_name : string) (st st' : state) :
  wf_fs (fs st) ->
  CreateModule app_name st = (Return tt, st') ->
  isidentifier app_name = true /\
  modules_root_ok (fs st) /\
  fs st !! app_dir app_name = None /\
  exists ls, settings_lines (fs st) = Some ls /\ anchor ∈ ls.
Proof.
  intros Hwf Hrun. destruct st as [m out]. simpl in *.
  destruct (isidentifier app_name) eqn:Hid;
    [|now rewrite (CreateModule_invalid _ _ Hid) in Hrun].
  destruct (m !! app_dir app_name) as [x|] eqn:Hnone.
  { rewrite (CreateModule_raise _ _ _ _ Hid (create_app_exists _ _ _ (mk_is_Some _ _ Hnone)))
      in Hrun. discriminate. }
  assert (Hroot : modules_root_ok m).
  { unfold modules_root_ok. destruct (m !! MODULES_DIR) as [[|text]|] eqn:Hm; try exact I.
    destruct (create_app_root_is_file _ _ _ out Hnone Hm) as (msg & out' & Hraise).
    rewrite (CreateModule_raise _ _ _ _ Hid Hraise) in Hrun. discriminate. }
  repeat split; try assumption.
  unfold settings_lines. destruct (m !! SETTINGS_FILE) as [[|text]|] eqn:Hs.
  - now rewrite (CreateModule_settings_dir _ _ _ Hid Hwf Hroot Hnone Hs) in Hrun.
  - exists (splitlines text). split; [reflexivity|].
    destruct (index anchor (splitlines text)) as [i|] eqn:Hi.
    + apply index_lookup in Hi. now apply list_elem_of_lookup_2 in Hi.
    + now rewrite (CreateModule_no_anchor _ _ _ Hid Hwf Hroot Hnone text Hs Hi) in Hrun.
  - now rewrite (CreateModule_no_settings _ _ _ Hid Hwf Hroot Hnone Hs) in Hrun.
Qed.

Lemma registered_or_not_below (app_name : string) (m : fsmap) (b : bool) (text : string) (r : path) :
  (if b then scaffolded app_name m
   else <[SETTINGS_FILE := File text]> (scaffolded app_name m)) !! (r ++ app_dir app_name) =
  scaffolded app_name m !! (r ++ app_dir app_name).
Proof.
  destruct b; [reflexivity|]. apply lookup_insert_ne, settings_not_below.
Qed.

(** * The claims *)

Lemma apps_entry (app_name : string) :
  (app_dir app_name </> "apps.py", File (_generate_app_config app_name))
  ∈ entries (app_dir app_name) (Dict (get_app_structure app_name)).
Proof.
  cbn [entries get_app_structure flat_map fst snd app].
  repeat (first [apply list_elem_of_here | apply list_elem_of_further]).
Qed.





(** C2.  The run of [CreateModule] for [billing] on the settings
    [LOCAL_APPS = [], []]: the document read back has the entry after the
    anchor and an empty line after the entry, two lines more than before. *)
Theorem registration_leaves_blank_line :
  isidentifier "billing" = true /\
  settings_lines (fs (project settings_minimal)) = Some ["LOCAL_APPS = ["; "]"] /\
  any_contains "billing" ["LOCAL_APPS = ["; "]"] = false /\
  (CreateModule "billing" (project settings_minimal)).1 = Return tt /\
  fs (CreateModule "billing" (project settings_minimal)).2 !! SETTINGS_FILE =
    Some (File (join nl ["LOCAL_APPS = [";
                         "    'modules.billing.apps.BillingConfig'," +:+ nl;
                         "]"])) /\
  settings_lines (fs (CreateModule "billing" (project settings_minimal)).2) =
    Some ["LOCAL_APPS = ["; "    'modules.billing.apps.BillingConfig',"; ""; "]"].
Proof. repeat split; vm_compute; reflexivity. Qed.








(** C6.  When the anchor is in the settings and some line contains the
    name as a substring, the run prints the warning and returns, and the
    settings are as they were, whether or not the line is a registration of
    the module; the scaffold is created all the same. *)
Theorem mentioned_name_not_registered (app_name : string) (st : state) (ls : list string) :
  isidentifier app_name = true ->
  wf_fs (fs st) ->
  modules_root_ok (fs st) ->
  fs st !! app_dir app_name = None ->
  settings_lines (fs st) = Some ls ->
  anchor ∈ ls ->
  any_contains app_name ls = true ->
  exists st',
    CreateModule app_name st = (Return tt, st') /\
    (nl +:+ "⚠️  Warning: App '" +:+ app_name +:+ "' is already registered in settings.py")
      ∈ stdout st' /\
    fs st' !! SETTINGS_FILE = fs st !! SETTINGS_FILE /\
    settings_lines (fs st') = Some ls /\
    fs st' !! app_dir app_name = Some Dir.
Proof.
  intros Hid Hwf Hroot Hnone Hls Hanchor Hany.
  pose proof Hls as (text & Htext & ->)%settings_lines_file.
  destruct (index_elem _ _ Hanchor) as [i Hi]. destruct st as [m out]. cbn [fs stdout] in *.
  eexists. split.
  { exact (CreateModule_warns _ _ out Hid Hwf Hroot Hnone text i Htext Hi Hany). }
  cbn [fs stdout]. split; [|split; [|split]].
  - apply elem_of_app. right. apply elem_of_app. right. apply list_elem_of_here.
  - apply scaffolded_settings.
  - unfold settings_lines in *. now rewrite scaffolded_settings.
  - apply scaffolded_app_dir.
Qed.

(** C6, witness: the name [auth] is part of a line of the Django
    applications; the module is created and never registered. *)
Lemma mentioned_name_not_registered_auth :
  (registration_entry "auth" ∉ splitlines settings_django) /\
  exists st',
    CreateModule "auth" (project settings_django) = (Return tt, st') /\
    fs st' !! SETTINGS_FILE = Some (File settings_django) /\
    fs st' !! app_dir "auth" = Some Dir.
Proof.
  split.
  - intros Hin. apply list_elem_of_In in Hin. vm_compute in Hin.
    repeat (destruct Hin as [Hin|Hin]; [discriminate Hin|]). exact Hin.
  - destruct (mentioned_name_not_registered "auth" (project settings_django)
                (splitlines settings_django))
      as (st' & Hrun & _ & Hsettings & _ & Hdir).
    + reflexivity.
    + apply project_wf.
    + exact I.
    + reflexivity.
    + reflexivity.
    + apply list_elem_of_In. vm_compute. tauto.
    + reflexivity.
    + exists st'. split; [exact Hrun|]. split; [rewrite Hsettings; reflexivity|].
      exact Hdir.
Defined.

(** The directories of the template. *)
Lemma template_directories (app_name : string) (q : path) :
  (q, Dir) ∈ entries (app_dir app_name) (Dict (get_app_structure app_name)) ->
  exists r, q = r ++ app_dir app_name /\
            r ∈ [ []; ["delivery"]; ["repository"]; ["services"]; ["usecases"];
                  ["models"]; ["migrations"] ].
Proof.
  cbn [entries get_app_structure flat_map fst snd app]. intros H.
  repeat match goal with
         | H : _ ∈ _ :: _ |- _ => apply elem_of_cons in H as [H|H]
         | H : _ ∈ [] |- _ => now apply elem_of_nil in H
         | H : (_, Dir) = (_, File _) |- _ => discriminate H
         | H : (_, Dir) = (_, Dir) |- _ => injection H as ->
         end.
  - exists []. split; [reflexivity|]. apply list_elem_of_here.
  - exists ["delivery"]. split; [reflexivity|].
    repeat (first [apply list_elem_of_here | apply list_elem_of_further]).
  - exists ["repository"]. split; [reflexivity|].
    repeat (first [apply list_elem_of_here | apply list_elem_of_further]).
  - exists ["services"]. split; [reflexivity|].
    repeat (first [apply list_elem_of_here | apply list_elem_of_further]).
  - exists ["usecases"]. split; [reflexivity|].
    repeat (first [apply list_elem_of_here | apply list_elem_of_further]).
  - exists ["models"]. split; [reflexivity|].
    repeat (first [apply list_elem_of_here | apply list_elem_of_further]).
  - exists ["migrations"]. split; [reflexivity|].
    repeat (first [apply list_elem_of_here | apply list_elem_of_further]).
Qed.

(** Each directory of the template has its marker, empty but for the one
    of [models]. *)
Lemma template_markers (app_name : string) (r : path) :
  r ∈ [ []; ["delivery"]; ["repository"]; ["services"]; ["usecases"];
        ["models"]; ["migrations"] ] ->
  ((r ++ app_dir app_name) </> "__init__.py",
   File (if decide (r = ["models"]) then _generate_models_init else ""))
  ∈ entries (app_dir app_name) (Dict (get_app_structure app_name)).
Proof.
  intros H. cbn [entries get_app_structure flat_map fst snd app].
  repeat match goal with
         | H : _ ∈ _ :: _ |- _ => apply elem_of_cons in H as [->|H]
         | H : _ ∈ [] |- _ => now apply elem_of_nil in H
         end;
    first [rewrite decide_False by discriminate | rewrite decide_True by reflexivity];
    repeat (first [apply list_elem_of_here | apply list_elem_of_further]).
Qed.

(** C7.  After a run that returns, every directory at or below the
    module's directory holds a file [__init__.py], with the text the
    template gives it: empty everywhere but in [models]. *)
Theorem packages_have_markers (app_name : string) (st : state) (ls : list string) :
  isidentifier app_name = true ->
  wf_fs (fs st) ->
  modules_root_ok (fs st) ->
  fs st !! app_dir app_name = None ->
  settings_lines (fs st) = Some ls ->
  anchor ∈ ls ->
  exists st',
    CreateModule app_name st = (Return tt, st') /\
    fs st' !! app_dir app_name = Some Dir /\
    forall r,
      fs st' !! (r ++ app_dir app_name) = Some Dir ->
      fs st' !! ((r ++ app_dir app_name) </> "__init__.py") =
        Some (File (if decide (r = ["models"]) then _generate_models_init else "")).
Proof.
  intros Hid Hwf Hroot Hnone Hls Hanchor.
  destruct (CreateModule_succeeds _ _ _ Hid Hwf Hroot Hnone Hls Hanchor)
    as (i & out' & _ & Hrun).
  eexists. split; [exact Hrun|]. cbn [fs]. split.
  { etrans; [apply (registered_or_not_below _ _ _ _ []) | apply scaffolded_app_dir]. }
  intros r Hdir. rewrite registered_or_not_below in Hdir.
  apply scaffolded_below in Hdir; [|now apply fresh_below].
  apply template_directories in Hdir as (r' & Hr & Hin).
  apply app_inv_tail in Hr as ->.
  change ((r' ++ app_dir app_name) </> "__init__.py")
    with (("__init__.py" :: r') ++ app_dir app_name).
  rewrite registered_or_not_below. apply scaffolded_entry.
  now apply template_markers.
Qed.

(** C7, witness: the packages of [billing]. *)
Lemma packages_have_markers_billing :
  exists st',
    CreateModule "billing" (project settings_minimal) = (Return tt, st') /\
    fs st' !! (app_dir "billing" </> "__init__.py") = Some (File "") /\
    fs st' !! (app_dir "billing" </> "models" </> "__init__.py") =
      Some (File _generate_models_init).
Proof.
  destruct (packages_have_markers "billing" (project settings_minimal) ["LOCAL_APPS = ["; "]"])
    as (st' & Hrun & Hroot & Hmarkers).
  - reflexivity.
  - apply project_wf.
  - exact I.
  - reflexivity.
  - reflexivity.
  - apply list_elem_of_here.
  - exists st'. split; [exact Hrun|]. split.
    + exact (Hmarkers [] Hroot).
    + apply (Hmarkers ["models"]).
      assert (H : st' = (CreateModule "billing" (project settings_minimal)).2)
        by (rewrite Hrun; reflexivity).
      rewrite H. vm_compute. reflexivity.
Defined.

(** What the scaffold holds below the module's directory does not depend
    on the file system it was created in. *)
Lemma scaffolded_independent (app_name : string) (m1 m2 : fsmap) (r : path) :
  (forall r, m1 !! (r ++ app_dir app_name) = None) ->
  (forall r, m2 !! (r ++ app_dir app_name) = None) ->
  scaffolded app_name m1 !! (r ++ app_dir app_name) =
  scaffolded app_name m2 !! (r ++ app_dir app_name).
Proof.
  intros H1 H2.
  destruct (scaffolded app_name m1 !! (r ++ app_dir app_name)) as [x|] eqn:E1.
  - apply scaffolded_below in E1; [|assumption]. symmetry. now apply scaffolded_entry.
  - destruct (scaffolded app_name m2 !! (r ++ app_dir app_name)) as [y|] eqn:E2; [|reflexivity].
    apply scaffolded_below in E2; [|assumption].
    apply (scaffolded_entry _ m1) in E2. congruence.
Qed.

(** C8.  Two runs for the same name that return, each in a file system of
    its own, leave the same nodes at the same paths below the module's
    directory: the same directories, and files of the same text. *)
Theorem scaffold_deterministic (app_name : string) (st1 st2 st1' st2' : state) :
  wf_fs (fs st1) ->
  wf_fs (fs st2) ->
  CreateModule app_name st1 = (Return tt, st1') ->
  CreateModule app_name st2 = (Return tt, st2') ->
  forall r, fs st1' !! (r ++ app_dir app_name) = fs st2' !! (r ++ app_dir app_name).
Proof.
  intros Hwf1 Hwf2 Hrun1 Hrun2 r.
  destruct (CreateModule_return_inv _ _ _ Hwf1 Hrun1) as (Hid & Hroot1 & Hnone1 & ls1 & Hls1 & Ha1).
  destruct (CreateModule_return_inv _ _ _ Hwf2 Hrun2) as (_ & Hroot2 & Hnone2 & ls2 & Hls2 & Ha2).
  destruct (CreateModule_succeeds _ _ _ Hid Hwf1 Hroot1 Hnone1 Hls1 Ha1) as (i1 & o1 & _ & E1).
  destruct (CreateModule_succeeds _ _ _ Hid Hwf2 Hroot2 Hnone2 Hls2 Ha2) as (i2 & o2 & _ & E2).
  rewrite Hrun1 in E1. rewrite Hrun2 in E2.
  injection E1 as ->. injection E2 as ->. cbn [fs].
  rewrite !registered_or_not_below.
  apply scaffolded_independent; now apply fresh_below.
Qed.

(** C8, witness: [billing] in a bare project and in a project of another
    shape. *)
Lemma scaffold_deterministic_billing :
  fs (CreateModule "billing" (project settings_minimal)).2
    !! (["apps.py"] ++ app_dir "billing") =
  fs (CreateModule "billing" (project_with_modules settings_django)).2
    !! (["apps.py"] ++ app_dir "billing").
Proof.
  apply (scaffold_deterministic "billing"
           (project settings_minimal) (project_with_modules settings_django)
           (CreateModule "billing" (project settings_minimal)).2
           (CreateModule "billing" (project_with_modules settings_django)).2
           (project_wf _) (project_with_modules_wf _)).
  - vm_compute. reflexivity.
  - vm_compute. reflexivity.
Defined.

(** C9.  An argument vector of any length but two ends the run with status
    1, with the error and the usage line on standard output and the file
    system as it was. *)
Theorem wrong_arity_exits (argv : list string) (st : state) :
  length argv ≠ 2%nat ->
  main argv st =
    (Raise (SystemExit 1),
     State (fs st)
           (stdout st ++ [nl +:+ "❌ Error: Invalid number of arguments";
                          "Usage: python create_app.py <app_name>"])) /\
  exit_status (main argv st).1 = 1%Z /\
  fs (main argv st).2 = fs st.
Proof.
  intros Hlen.
  assert (Hmain : main argv st =
    (print (nl +:+ "❌ Error: Invalid number of arguments") ;;
     print "Usage: python create_app.py <app_name>" ;;
     sys_exit 1) st).
  { destruct argv as [|a [|b [|c argv]]];
      [reflexivity | reflexivity | now cbn in Hlen | reflexivity]. }
  assert (Hrun : main argv st =
    (Raise (SystemExit 1),
     State (fs st)
           (stdout st ++ [nl +:+ "❌ Error: Invalid number of arguments";
                          "Usage: python create_app.py <app_name>"]))).
  { rewrite Hmain. do 2 (erewrite bind_return by reflexivity).
    unfold sys_exit, raise. cbn [fs stdout]. now rewrite <- app_assoc. }
  rewrite Hrun. repeat split.
Qed.

(** C9, witness: no argument, and two arguments. *)
Lemma wrong_arity_exits_examples :
  exit_status (main ["create_module.py"] (project settings_minimal)).1 = 1%Z /\
  fs (main ["create_module.py"; "billing"; "extra"] (project settings_minimal)).2 =
    fs (project settings_minimal).
Proof.
  split.
  - apply (wrong_arity_exits ["create_module.py"] (project settings_minimal)). cbn. lia.
  - apply (wrong_arity_exits ["create_module.py"; "billing"; "extra"]
             (project settings_minimal)). cbn. lia.
Defined.

(** A path below the directory of one module lies below no other module's
    directory, and is not the modules root. *)
Lemma below_other_module (s app_name : string) (r : path) :
  s ≠ app_name ->
  r ++ app_dir s ≠ MODULES_DIR /\ forall r', r ++ app_dir s ≠ r' ++ app_dir app_name.
Proof.
  intros Hne. split.
  - unfold app_dir, MODULES_DIR, BASE_DIR, joinpath.
    destruct r as [|a [|b r]]; cbn [app]; congruence.
  - intros r' Heq. apply app_inj_2 in Heq as [_ Heq]; [|reflexivity].
    unfold app_dir, joinpath in Heq. congruence.
Qed.




(** * Further properties of the script *)

(** * Every run of [CreateModule] *)

Lemma CreateModule_ends (app_name : string) (st : state) :
  wf_fs (fs st) -> run_end app_name st (CreateModule app_name st).
Proof.
  intros Hwf. destruct st as [m out]. cbn [fs] in *.
  destruct (isidentifier app_name) eqn:Hid.
  2:{ rewrite (CreateModule_invalid _ _ Hid). apply Rejected. cbn [fs]. intros (H & _). congruence. }
  destruct (m !! app_dir app_name) as [x|] eqn:Hnone.
  { rewrite (CreateModule_raise _ _ _ _ Hid (create_app_exists _ _ out (mk_is_Some _ _ Hnone))).
    cbn [fs stdout]. apply Rejected. cbn [fs]. intros (_ & _ & H). congruence. }
  destruct (m !! MODULES_DIR) as [[|text]|] eqn:Hm.
  2:{ destruct (create_app_root_is_file _ _ _ out Hnone Hm) as (msg & out' & Hraise).
      rewrite (CreateModule_raise _ _ _ _ Hid Hraise). cbn [fs stdout]. apply Rejected. cbn [fs].
      intros (_ & H & _). unfold modules_root_ok in H. now rewrite Hm in H. }
  all: assert (Hroot : modules_root_ok m) by (unfold modules_root_ok; now rewrite Hm).
  all: destruct (m !! SETTINGS_FILE) as [[|text]|] eqn:Hs.
  all: try (rewrite (CreateModule_settings_dir _ _ out Hid Hwf Hroot Hnone Hs);
            apply Unregistered; try assumption;
            intros ls Hls; unfold settings_lines in Hls; cbn [fs] in Hls; now rewrite Hs in Hls).
  all: try (rewrite (CreateModule_no_settings _ _ out Hid Hwf Hroot Hnone Hs);
            apply Unregistered; try assumption;
            intros ls Hls; unfold settings_lines in Hls; cbn [fs] in Hls; now rewrite Hs in Hls).
  all: assert (Hls : settings_lines m = Some (splitlines text))
         by (unfold settings_lines; now rewrite Hs).
  all: destruct (index anchor (splitlines text)) as [i|] eqn:Hi.
  all: try (rewrite (CreateModule_no_anchor _ _ out Hid Hwf Hroot Hnone text Hs Hi);
            apply Unregistered; try assumption;
            intros ls Hls'; cbn [fs] in Hls'; rewrite Hls in Hls'; injection Hls' as <-;
            intros Hin; apply index_elem in Hin as [j Hj]; congruence).
  all: pose proof (index_lookup _ _ _ Hi) as Hin; apply list_elem_of_lookup_2 in Hin.
  all: destruct (CreateModule_succeeds app_name (State m out) _ Hid Hwf Hroot Hnone Hls Hin)
         as (j & out' & Hj & Hrun).
  all: rewrite Hrun; cbn [fs] in *; now apply (Created _ (State m out)).
Qed.



Lemma scaffolded_modules_root (app_name : string) (m : fsmap) :
  scaffolded app_name m !! MODULES_DIR = Some Dir.
Proof.
  unfold scaffolded. rewrite lookup_install_notin; [apply lookup_insert_eq|].
  intros Hin. apply entries_below in Hin as [r Hr]. symmetry in Hr.
  now apply (app_cons_ne r app_name MODULES_DIR) in Hr.
Qed.

(** X2.  Whatever the end of a run in a tree, it has touched nothing but
    the modules root, the module's directory with what lies below it, and
    the settings file; and a modules root that was a directory still is
    one. *)
Theorem run_touches_only_its_own (app_name : string) (st : state) :
  wf_fs (fs st) ->
  (forall q, q ≠ MODULES_DIR -> q ≠ SETTINGS_FILE -> (forall r, q ≠ r ++ app_dir app_name) ->
             fs (CreateModule app_name st).2 !! q = fs st !! q) /\
  (fs st !! MODULES_DIR = Some Dir -> fs (CreateModule app_name st).2 !! MODULES_DIR = Some Dir).
Proof.
  intros Hwf. pose proof (scaffolded_modules_root app_name) as Hmod.
  destruct (CreateModule_ends app_name st Hwf) as [out' _|out' _ _ _ _|ls i out' _ _ _ _ _];
    cbn [snd fs]; split.
  - reflexivity.
  - auto.
  - intros q Hq _ Hout. now apply scaffolded_outside.
  - intros _. apply Hmod.
  - intros q Hq Hs Hout. destruct (any_contains app_name ls).
    + now apply scaffolded_outside.
    + rewrite lookup_insert_ne by congruence. now apply scaffolded_outside.
  - intros _. destruct (any_contains app_name ls); [apply Hmod|].
    rewrite lookup_insert_ne by discriminate. apply Hmod.
Qed.

(** X2, witness: the directory [core] of the sample project after the run
    for [billing]. *)
Lemma run_touches_only_its_own_core :
  fs (CreateModule "billing" (project settings_minimal)).2 !! ["core"] = Some Dir.
Proof.
  destruct (run_touches_only_its_own "billing" (project settings_minimal) (project_wf _))
    as [Hframe _].
  rewrite Hframe; [reflexivity | discriminate | discriminate | apply core_not_below].
Defined.

(** * Failures of the registration, and of the walk *)

(** X3.  When the settings are no regular file (not there, or a
    directory), the scaffold is created all the same; then the run ends
    with status 1 on a registration error, which for a missing file reads
    [settings.py not found].  The scaffold stays and no settings file is
    written. *)
Theorem unreadable_settings_keep_scaffold (app_name : string) (st : state) :
  isidentifier app_name = true ->
  wf_fs (fs st) ->
  modules_root_ok (fs st) ->
  fs st !! app_dir app_name = None ->
  settings_lines (fs st) = None ->
  exists msg st',
    CreateModule app_name st = (Raise (SystemExit 1), st') /\
    last (stdout st') =
      Some (nl +:+ "❌ Error: App creation failed: App registration failed: " +:+ msg) /\
    (fs st !! SETTINGS_FILE = None -> msg = "settings.py not found") /\
    fs st' = scaffolded app_name (fs st) /\
    (forall p x, (p, x) ∈ entries (app_dir app_name) (Dict (get_app_structure app_name)) ->
                 fs st' !! p = Some x) /\
    fs st' !! SETTINGS_FILE = fs st !! SETTINGS_FILE.
Proof.
  intros Hid Hwf Hroot Hnone Hls. destruct st as [m out]. cbn [fs stdout] in *.
  unfold settings_lines in Hls.
  destruct (m !! SETTINGS_FILE) as [[|text]|] eqn:Hs; [| discriminate |].
  - exists (str_exn (IsADirectoryError SETTINGS_FILE)). eexists.
    split; [exact (CreateModule_settings_dir _ _ out Hid Hwf Hroot Hnone Hs)|].
    cbn [fs stdout]. split; [rewrite !last_app; reflexivity|].
    split; [discriminate|]. split; [reflexivity|].
    split; [intros p x; apply scaffolded_entry|].
    now rewrite scaffolded_settings.
  - exists "settings.py not found". eexists.
    split; [exact (CreateModule_no_settings _ _ out Hid Hwf Hroot Hnone Hs)|].
    cbn [fs stdout]. split; [rewrite !last_app; reflexivity|].
    split; [reflexivity|]. split; [reflexivity|].
    split; [intros p x; apply scaffolded_entry|].
    now rewrite scaffolded_settings.
Qed.

(** X3, witness: a project directory with nothing in it. *)
Lemma unreadable_settings_empty_project :
  exists msg st',
    CreateModule "billing" (State ∅ []) = (Raise (SystemExit 1), st') /\
    msg = "settings.py not found" /\
    fs st' !! (app_dir "billing" </> "apps.py") = Some (File (_generate_app_config "billing")) /\
    fs st' !! SETTINGS_FILE = None.
Proof.
  destruct (unreadable_settings_keep_scaffold "billing" (State ∅ []))
    as (msg & st' & Hrun & _ & Hmsg & _ & Hentries & Hsettings).
  - reflexivity.
  - apply map_Forall_empty.
  - exact I.
  - reflexivity.
  - reflexivity.
  - exists msg, st'. split; [exact Hrun|]. split; [now apply Hmsg|].
    split; [apply Hentries, apps_entry | exact Hsettings].
Defined.

(** X4.  When the modules root is a regular file, the run for a valid new
    name ends with status 1 and the file system is as it was: nothing of
    the scaffold is created. *)
Theorem modules_root_file_rejected (app_name text : string) (st : state) :
  isidentifier app_name = true ->
  fs st !! MODULES_DIR = Some (File text) ->
  fs st !! app_dir app_name = None ->
  exists out',
    CreateModule app_name st = (Raise (SystemExit 1), State (fs st) out') /\
    exit_status (CreateModule app_name st).1 = 1%Z.
Proof.
  intros Hid Hfile Hnone. destruct st as [m out]. cbn [fs] in *.
  destruct (create_app_root_is_file _ _ _ out Hnone Hfile) as (msg & out' & Hraise).
  rewrite (CreateModule_raise _ _ _ _ Hid Hraise). cbn [fs stdout].
  eexists. split; reflexivity.
Qed.

(** X4, witness: a project in which [modules] is a file. *)
Lemma modules_root_file_rejected_example :
  exit_status (CreateModule "billing" (State (<[MODULES_DIR := File "x"]> ∅) [])).1 = 1%Z.
Proof.
  destruct (modules_root_file_rejected "billing" "x" (State (<[MODULES_DIR := File "x"]> ∅) []))
    as (out' & _ & Hexit); [reflexivity | reflexivity | reflexivity | exact Hexit].
Defined.

(** * What a successful run prints *)

(** X5.  A run that registers the module prints, after what was printed
    before: the heading, one line for each file of the template in the
    order of the template, by its path below the modules root (and none
    for a directory), the two confirmations, and the report, whose tree
    lists the sub-directories of the template in their order. *)
Theorem success_transcript (app_name : string) (st : state) (ls : list string) :
  isidentifier app_name = true ->
  wf_fs (fs st) ->
  modules_root_ok (fs st) ->
  fs st !! app_dir app_name = None ->
  settings_lines (fs st) = Some ls ->
  anchor ∈ ls ->
  any_contains app_name ls = false ->
  exists st',
    CreateModule app_name st = (Return tt, st') /\
    stdout st' =
      stdout st ++
      [ nl +:+ "📦 Creating new app: " +:+ app_name ] ++
      map (fun f => "   Creating: " +:+ app_name +:+ "/" +:+ f)
          [ "delivery/__init__.py"; "delivery/api.py"; "delivery/schemas.py";
            "delivery/middlewares.py"; "repository/__init__.py"; "services/__init__.py";
            "usecases/__init__.py"; "models/__init__.py"; "migrations/__init__.py";
            "__init__.py"; "apps.py" ] ++
      [ "✅ App structure created successfully";
        "✅ App registered in settings.py";
        nl +:+ "🎉 Successfully created app: " +:+ app_name;
        nl +:+ "Structure created:";
        "   modules/" +:+ app_name +:+ "/" ] ++
      map (fun d => "   ├── " +:+ d +:+ "/") (directories (get_app_structure app_name)).
Proof.
  intros Hid Hwf Hroot Hnone (text & Htext & ->)%settings_lines_file Hanchor Hany.
  destruct (index_elem _ _ Hanchor) as [i Hi]. destruct st as [m out]. cbn [fs stdout] in *.
  eexists. split.
  { exact (CreateModule_registers _ _ out Hid Hwf Hroot Hnone text i Htext Hi Hany). }
  cbn [stdout]. reflexivity.
Qed.

(** X5, witness: the run for [billing] in the sample project. *)
Lemma success_transcript_billing :
  exists st',
    CreateModule "billing" (project settings_minimal) = (Return tt, st') /\
    stdout st' !! 2%nat = Some "   Creating: billing/delivery/api.py" /\
    last (stdout st') = Some "   ├── migrations/".
Proof.
  destruct (success_transcript "billing" (project settings_minimal) ["LOCAL_APPS = ["; "]"])
    as (st' & Hrun & Hout).
  - reflexivity.
  - apply project_wf.
  - exact I.
  - reflexivity.
  - reflexivity.
  - apply list_elem_of_here.
  - reflexivity.
  - exists st'. split; [exact Hrun|]. rewrite Hout. split; reflexivity.
Defined.

(** * The place of the registration *)

Lemma index_first (x : string) (l : list string) (i : nat) :
  index x l = Some i -> forall j, (j < i)%nat -> l !! j ≠ Some x.
Proof.
  revert i. induction l as [|y l IH]; intros i; simpl; [discriminate|].
  destruct (String.eqb_spec y x) as [->|Hne].
  - intros [= <-] j Hj. lia.
  - destruct (index x l) as [k|] eqn:Hk; [|discriminate]. intros [= <-] [|j] Hj.
    + simpl. congruence.
    + simpl. apply (IH k eq_refl). lia.
Qed.

(** X6.  A registration puts the entry after the first line that is the
    anchor, whatever follows: the lines of the new document are the lines
    read, in their order, with the entry and an empty line after that
    anchor (and without an empty last line). *)
Theorem registered_after_first_anchor (app_name : string) (st : state) (ls : list string) :
  isidentifier app_name = true ->
  wf_fs (fs st) ->
  modules_root_ok (fs st) ->
  fs st !! app_dir app_name = None ->
  settings_lines (fs st) = Some ls ->
  anchor ∈ ls ->
  any_contains app_name ls = false ->
  exists st' i,
    CreateModule app_name st = (Return tt, st') /\
    ls !! i = Some anchor /\
    (forall j, (j < i)%nat -> ls !! j ≠ Some anchor) /\
    settings_lines (fs st') =
      Some (strip_last_empty (take (i + 1) ls ++
                              registration_entry app_name :: "" :: drop (i + 1) ls)) /\
    take (i + 1) ls ++ drop (i + 1) ls = ls.
Proof.
  intros Hid Hwf Hroot Hnone Hls Hanchor Hany.
  destruct (CreateModule_succeeds _ _ _ Hid Hwf Hroot Hnone Hls Hanchor)
    as (i & out' & Hi & Hrun).
  rewrite Hany in Hrun. eexists. exists i. split; [exact Hrun|].
  split; [now apply index_lookup|]. split; [now apply index_first|].
  split; [|apply take_drop]. cbn [fs]. unfold settings_lines.
  rewrite lookup_insert_eq. f_equal.
  apply registered_lines; [assumption | now apply (settings_lines_no_break (fs st))].
Qed.

(** X6, witness: settings with two anchor lines. *)
Lemma registered_after_first_anchor_twice :
  exists st',
    CreateModule "billing"
      (project (unlines ["LOCAL_APPS = ["; "]"; "LOCAL_APPS = ["; "]"])) = (Return tt, st') /\
    settings_lines (fs st') =
      Some ["LOCAL_APPS = ["; "    'modules.billing.apps.BillingConfig',"; "";
            "]"; "LOCAL_APPS = ["; "]"].
Proof.
  destruct (registered_after_first_anchor "billing"
              (project (unlines ["LOCAL_APPS = ["; "]"; "LOCAL_APPS = ["; "]"]))
              ["LOCAL_APPS = ["; "]"; "LOCAL_APPS = ["; "]"])
    as (st' & i & Hrun & Hi & Hfirst & Hlines & _).
  - reflexivity.
  - apply project_wf.
  - exact I.
  - reflexivity.
  - reflexivity.
  - apply list_elem_of_here.
  - reflexivity.
  - exists st'. split; [exact Hrun|]. rewrite Hlines.
    destruct i as [|i]; [reflexivity|].
    exfalso. apply (Hfirst 0%nat); [lia | reflexivity].
Defined.

(** * The tree is kept *)

(** Whatever a template declares lies in a directory that it declares,
    its own place apart. *)
Lemma entries_parent (content : entry) :
  forall (base p : path) (x : node),
    (p, x) ∈ entries base content -> p = base \/ (tail p, Dir) ∈ entries base content.
Proof.
  induction content as [text|items IH] using entry_ind'; intros base p x Hin;
    cbn [entries] in *.
  - apply list_elem_of_singleton in Hin. injection Hin as -> _. now left.
  - apply elem_of_cons in Hin as [Hin|Hin]; [injection Hin as -> _; now left|].
    right.
    apply list_elem_of_In, in_flat_map in Hin as ([name c] & Hitem & Hin).
    apply list_elem_of_In in Hitem, Hin. cbn [fst snd] in Hin.
    rewrite Forall_forall in IH.
    destruct (IH _ Hitem _ _ _ Hin) as [->|Hpar]; [apply list_elem_of_here|].
    apply list_elem_of_further, list_elem_of_In, in_flat_map.
    exists (name, c). split; now apply list_elem_of_In.
Qed.

Lemma wf_scaffolded (app_name : string) (m : fsmap) :
  wf_fs m -> (forall r, m !! (r ++ app_dir app_name) = None) ->
  wf_fs (scaffolded app_name m).
Proof.
  intros Hwf Hfresh p x Hp.
  destruct (decide (p = MODULES_DIR)) as [->|Hroot]; [reflexivity|].
  destruct (decide (p ∈ (entries (app_dir app_name) (Dict (get_app_structure app_name))).*1))
    as [Hin|Hnotin].
  - apply list_elem_of_fmap in Hin as ([q y] & -> & Hin). cbn [fst] in *.
    destruct (entries_parent _ _ _ _ Hin) as [->|Hpar].
    + apply isdir_in_Some; [discriminate | apply scaffolded_modules_root].
    + apply isdir_in_Some; [|now apply scaffolded_entry].
      destruct (entries_below _ _ _ (list_elem_of_fmap_2 fst _ _ Hpar)) as [r Hr].
      cbn [fst] in Hr. rewrite Hr. destruct r; discriminate.
  - assert (Hm : m !! p = Some x).
    { unfold scaffolded in Hp. rewrite (lookup_install_notin _ _ _ Hnotin) in Hp.
      now rewrite lookup_insert_ne in Hp by congruence. }
    pose proof (Hwf _ _ Hm) as Hdir. cbn beta in Hdir.
    destruct (tail p) as [|name parent] eqn:Htail; [reflexivity|].
    apply isdir_in_lookup in Hdir. rewrite lookup_node_cons in Hdir.
    apply isdir_in_Some; [discriminate|].
    destruct (decide (name :: parent = MODULES_DIR)) as [->|Hne];
      [apply scaffolded_modules_root|].
    rewrite scaffolded_outside; [assumption | assumption |].
    intros r Hr. rewrite Hr, Hfresh in Hdir. discriminate.
Qed.

Lemma isdir_in_insert_file (m : fsmap) (p t : path) (old new : string) :
  m !! p = Some (File old) -> isdir_in (<[p := File new]> m) t = isdir_in m t.
Proof.
  intros Hold. unfold isdir_in, lookup_node. destruct t as [|name parent]; [reflexivity|].
  destruct (decide (p = name :: parent)) as [<-|Hne].
  - now rewrite lookup_insert_eq, Hold.
  - now rewrite lookup_insert_ne.
Qed.

Lemma wf_insert_file (m : fsmap) (p : path) (old new : string) :
  wf_fs m -> m !! p = Some (File old) -> wf_fs (<[p := File new]> m).
Proof.
  intros Hwf Hold q x Hq. cbn beta. rewrite (isdir_in_insert_file _ _ _ _ _ Hold).
  apply lookup_insert_Some in Hq as [[<- _]|[_ Hq]].
  - apply (Hwf _ _ Hold).
  - apply (Hwf _ _ Hq).
Qed.

(** X7.  A run in a tree leaves a tree, however it ends: whatever exists
    afterwards lies in a directory. *)
Theorem run_keeps_tree (app_name : string) (st : state) :
  wf_fs (fs st) -> wf_fs (fs (CreateModule app_name st).2).
Proof.
  intros Hwf.
  destruct (CreateModule_ends app_name st Hwf)
    as [out' _|out' _ _ Hnone _|ls i out' _ _ Hnone Hls _]; cbn [snd fs].
  - assumption.
  - apply wf_scaffolded; [assumption | now apply fresh_below].
  - assert (Hs : wf_fs (scaffolded app_name (fs st)))
      by (apply wf_scaffolded; [assumption | now apply fresh_below]).
    destruct (any_contains app_name ls); [assumption|].
    apply settings_lines_file in Hls as (text & Htext & _).
    apply (wf_insert_file _ _ text); [assumption|]. now rewrite scaffolded_settings.
Qed.

(** X7, witness: after the run for [billing], [apps.py] lies in a
    directory. *)
Lemma run_keeps_tree_billing :
  isdir_in (fs (CreateModule "billing" (project settings_minimal)).2)
           (tail (app_dir "billing" </> "apps.py")) = true.
Proof.
  apply (run_keeps_tree "billing" (project settings_minimal) (project_wf _)
           (app_dir "billing" </> "apps.py") (File (_generate_app_config "billing"))).
  vm_compute. reflexivity.
Defined.

(** * One module after another *)

Lemma prefix_append_l (x a b : string) :
  String.prefix x a = true -> String.prefix x (a +:+ b) = true.
Proof.
  revert a. induction x as [|c x IH]; intros [|d a] H; simpl in *;
    try reflexivity; try discriminate.
  - now destruct b.
  - destruct (ascii_dec c d); [now apply IH | discriminate].
Qed.

Lemma contains_append_l (x a b : string) :
  contains x a = true -> contains x (a +:+ b) = true.
Proof.
  induction a as [|c a IH]; intros H.
  - rewrite contains_eq in H. rewrite orb_false_r in H.
    apply contains_of_prefix. destruct x; [now destruct b | discriminate].
  - change (String c a +:+ b) with (String c (a +:+ b)).
    rewrite contains_eq in H. rewrite contains_eq. apply orb_true_iff in H as [H|H].
    + pose proof (prefix_append_l _ _ b H) as Hp.
      change (String c a +:+ b) with (String c (a +:+ b)) in Hp. now rewrite Hp.
    + rewrite (IH H). apply orb_true_r.
Qed.

(** A name that is part of another name is part of its entry. *)
Lemma contains_registration_entry (a b : string) :
  contains b a = true -> contains b (registration_entry a) = true.
Proof. intros H. unfold registration_entry. now apply contains_skip, contains_append_l. Qed.

Lemma any_contains_true (needle : string) (l : list string) (line : string) :
  line ∈ l -> contains needle line = true -> any_contains needle l = true.
Proof.
  intros Hin H. unfold any_contains. apply existsb_exists.
  exists line. split; [now apply list_elem_of_In | assumption].
Qed.

Lemma elem_of_strip_last_empty (x : string) (l : list string) :
  x ∈ strip_last_empty l -> x ∈ l.
Proof.
  induction l as [|y [|z l] IH]; [easy| |].
  - simpl. now destruct (decide (y = "")).
  - change (strip_last_empty (y :: z :: l)) with (y :: strip_last_empty (z :: l)).
    intros [->|H]%elem_of_cons; [left | right; now apply IH].
Qed.

Lemma strip_last_empty_elem (x : string) (l : list string) :
  x ≠ "" -> x ∈ l -> x ∈ strip_last_empty l.
Proof.
  intros Hx. induction l as [|y [|z l] IH]; [easy| |].
  - intros ->%list_elem_of_singleton. simpl. rewrite decide_False by assumption. left.
  - change (strip_last_empty (y :: z :: l)) with (y :: strip_last_empty (z :: l)).
    intros [->|H]%elem_of_cons; [left | right; now apply IH].
Qed.

Lemma id_char_no_dot (c : ascii) : is_id_continue c = true -> c ≠ "."%char.
Proof. destruct c as [[] [] [] [] [] [] [] []]; vm_compute; congruence. Qed.

Lemma append_dot_inj (a b x y : string) :
  all_chars is_id_continue a = true -> all_chars is_id_continue b = true ->
  a +:+ String "." x = b +:+ String "." y -> a = b.
Proof.
  revert b. induction a as [|c a IH]; intros [|d b] Ha Hb H; simpl in *.
  - reflexivity.
  - injection H as <- _. apply andb_prop in Hb as [Hd _]. now apply id_char_no_dot in Hd.
  - injection H as -> _. apply andb_prop in Ha as [Hc _]. now apply id_char_no_dot in Hc.
  - injection H as -> H. apply andb_prop in Ha as [_ Ha]. apply andb_prop in Hb as [_ Hb].
    f_equal. now apply IH.
Qed.

Lemma identifier_chars (s : string) : isidentifier s = true -> all_chars is_id_continue s = true.
Proof.
  destruct s as [|c s]; [discriminate|]. simpl. intros [Hc Hs]%andb_prop.
  now rewrite (id_start_continue _ Hc).
Qed.

(** Different modules have different entries. *)
Lemma registration_entry_inj (a b : string) :
  isidentifier a = true -> isidentifier b = true ->
  registration_entry a = registration_entry b -> a = b.
Proof.
  intros Ha Hb H. unfold registration_entry in H. cbn [String.append] in H.
  injection H as H.
  exact (append_dot_inj _ _ _ _ (identifier_chars _ Ha) (identifier_chars _ Hb) H).
Qed.

(** X8.  A second module whose name is part of the entry of a module
    registered just before (a part of that module's name, or of the words
    around it) is created and not registered: the run warns and leaves the
    settings as the first run wrote them. *)
Theorem later_module_shadowed (a b : string) (st : state) (ls : list string) :
  isidentifier a = true ->
  isidentifier b = true ->
  a ≠ b ->
  wf_fs (fs st) ->
  modules_root_ok (fs st) ->
  fs st !! app_dir a = None ->
  fs st !! app_dir b = None ->
  settings_lines (fs st) = Some ls ->
  anchor ∈ ls ->
  any_contains a ls = false ->
  contains b (registration_entry a) = true ->
  exists st1 st2,
    CreateModule a st = (Return tt, st1) /\
    CreateModule b st1 = (Return tt, st2) /\
    fs st2 !! app_dir b = Some Dir /\
    fs st2 !! SETTINGS_FILE = fs st1 !! SETTINGS_FILE /\
    (nl +:+ "⚠️  Warning: App '" +:+ b +:+ "' is already registered in settings.py")
      ∈ stdout st2 /\
    (any_contains b ls = false ->
     forall ls2, settings_lines (fs st2) = Some ls2 -> registration_entry b ∉ ls2).
Proof.
  intros Ha Hb Hab Hwf Hroot Hnone_a Hnone_b Hls Hanchor Hany Hshadow.
  pose proof (settings_lines_no_break _ _ Hls) as Hbreak.
  pose proof Hls as (text & Htext & ->)%settings_lines_file.
  destruct (index_elem _ _ Hanchor) as [i Hi]. destruct st as [m out]. cbn [fs stdout] in *.
  set (text1 := registered_text a i (splitlines text)).
  set (m1 := <[SETTINGS_FILE := File text1]> (scaffolded a m)).
  assert (Hlines1 : splitlines text1 =
            strip_last_empty (take (i + 1) (splitlines text) ++
                              registration_entry a :: "" :: drop (i + 1) (splitlines text)))
    by exact (registered_lines _ _ _ Ha Hbreak).
  assert (Hwf1 : wf_fs m1).
  { apply (wf_insert_file _ _ text).
    - apply wf_scaffolded; [exact Hwf | exact (fresh_below _ _ Hwf Hnone_a)].
    - rewrite scaffolded_settings. exact Htext. }
  assert (Hroot1 : modules_root_ok m1).
  { unfold modules_root_ok, m1. rewrite lookup_insert_ne by discriminate.
    rewrite scaffolded_modules_root. exact I. }
  assert (Hnone1 : m1 !! app_dir b = None).
  { destruct (below_other_module b a [] (not_eq_sym Hab)) as [H1 H2].
    unfold m1. rewrite lookup_insert_ne; [|exact (settings_not_below b [])].
    rewrite scaffolded_outside; [exact Hnone_b | exact H1 | exact H2]. }
  assert (Htext1 : m1 !! SETTINGS_FILE = Some (File text1)) by apply lookup_insert_eq.
  assert (Hanchor1 : anchor ∈ splitlines text1).
  { rewrite Hlines1. apply strip_last_empty_elem; [discriminate|].
    apply elem_of_app. left. apply (list_elem_of_lookup_2 _ i).
    rewrite lookup_take_lt by lia. exact (index_lookup _ _ _ Hi). }
  destruct (index_elem _ _ Hanchor1) as [j Hj].
  assert (Hany1 : any_contains b (splitlines text1) = true).
  { apply (any_contains_true _ _ (registration_entry a)); [|exact Hshadow].
    rewrite Hlines1. apply strip_last_empty_elem; [apply registration_entry_nonempty|].
    apply elem_of_app. right. left. }
  pose proof (CreateModule_registers _ _ out Ha Hwf Hroot Hnone_a text i Htext Hi Hany) as Hrun1.
  pose proof (CreateModule_warns _ _ (out ++ scaffold_log a ++
                "✅ App registered in settings.py" :: success_report a)
                Hb Hwf1 Hroot1 Hnone1 text1 j Htext1 Hj Hany1) as Hrun2.
  eexists. eexists. split; [exact Hrun1|]. split; [exact Hrun2|]. cbn [fs stdout].
  split; [apply scaffolded_app_dir|]. split; [apply scaffolded_settings|]. split.
  - apply elem_of_app. right. apply elem_of_app. right. apply elem_of_app. left. left.
  - intros Hany_b ls2 Hls2. unfold settings_lines in Hls2.
    rewrite scaffolded_settings, Htext1 in Hls2. injection Hls2 as <-.
    rewrite Hlines1. intros Hin%elem_of_strip_last_empty.
    apply (unmentioned_not_registered _ _ Hany_b).
    rewrite <- (take_drop (i + 1) (splitlines text)). apply elem_of_app.
    apply elem_of_app in Hin as [Hin|Hin]; [left; exact Hin|].
    apply elem_of_cons in Hin as [Hin|Hin].
    { exfalso. apply Hab. symmetry. exact (registration_entry_inj _ _ Hb Ha Hin). }
    apply elem_of_cons in Hin as [Hin|Hin].
    { exfalso. exact (registration_entry_nonempty _ Hin). }
    right. exact Hin.
Qed.

(** X8, witness: [bill] after [billing]. *)
Lemma later_module_shadowed_bill :
  exists st1 st2,
    CreateModule "billing" (project settings_minimal) = (Return tt, st1) /\
    CreateModule "bill" st1 = (Return tt, st2) /\
    fs st2 !! app_dir "bill" = Some Dir /\
    forall ls2, settings_lines (fs st2) = Some ls2 -> registration_entry "bill" ∉ ls2.
Proof.
  destruct (later_module_shadowed "billing" "bill" (project settings_minimal)
              ["LOCAL_APPS = ["; "]"])
    as (st1 & st2 & Hrun1 & Hrun2 & Hdir & _ & _ & Hnot).
  - reflexivity.
  - reflexivity.
  - discriminate.
  - apply project_wf.
  - exact I.
  - reflexivity.
  - reflexivity.
  - reflexivity.
  - apply list_elem_of_here.
  - reflexivity.
  - reflexivity.
  - exists st1, st2. split; [exact Hrun1|]. split; [exact Hrun2|]. split; [exact Hdir|].
    apply Hnot. reflexivity.
Defined.

Lemma any_contains_none (needle : string) (l : list string) :
  (forall line, line ∈ l -> contains needle line = false) -> any_contains needle l = false.
Proof.
  unfold any_contains. induction l as [|y l IH]; intros H; [reflexivity|].
  simpl. rewrite (H y) by left. apply IH. intros line Hin. apply H. now right.
Qed.

(** X9.  Two modules created one after the other, neither mentioned in
    the settings nor the second a part of the entry of the first: both runs
    return, both scaffolds are on disk, and the settings hold the entry of
    each exactly once. *)
Theorem two_modules_registered (a b : string) (st : state) (ls : list string) :
  isidentifier a = true ->
  isidentifier b = true ->
  a ≠ b ->
  wf_fs (fs st) ->
  modules_root_ok (fs st) ->
  fs st !! app_dir a = None ->
  fs st !! app_dir b = None ->
  settings_lines (fs st) = Some ls ->
  anchor ∈ ls ->
  any_contains a ls = false ->
  any_contains b ls = false ->
  contains b (registration_entry a) = false ->
  exists st1 st2 ls2,
    CreateModule a st = (Return tt, st1) /\
    CreateModule b st1 = (Return tt, st2) /\
    fs st2 !! (app_dir a </> "apps.py") = Some (File (_generate_app_config a)) /\
    fs st2 !! (app_dir b </> "apps.py") = Some (File (_generate_app_config b)) /\
    settings_lines (fs st2) = Some ls2 /\
    occurrences (registration_entry a) ls2 = 1%nat /\
    occurrences (registration_entry b) ls2 = 1%nat.
Proof.
  intros Ha Hb Hab Hwf Hroot Hnone_a Hnone_b Hls Hanchor Hany_a Hany_b Hfree.
  pose proof (settings_lines_no_break _ _ Hls) as Hbreak.
  pose proof Hls as (text & Htext & ->)%settings_lines_file.
  destruct (index_elem _ _ Hanchor) as [i Hi]. destruct st as [m out]. cbn [fs stdout] in *.
  set (text1 := registered_text a i (splitlines text)).
  set (m1 := <[SETTINGS_FILE := File text1]> (scaffolded a m)).
  assert (Hlines1 : splitlines text1 =
            strip_last_empty (take (i + 1) (splitlines text) ++
                              registration_entry a :: "" :: drop (i + 1) (splitlines text)))
    by exact (registered_lines _ _ _ Ha Hbreak).
  assert (Hwf1 : wf_fs m1).
  { apply (wf_insert_file _ _ text).
    - apply wf_scaffolded; [exact Hwf | exact (fresh_below _ _ Hwf Hnone_a)].
    - rewrite scaffolded_settings. exact Htext. }
  assert (Hroot1 : modules_root_ok m1).
  { unfold modules_root_ok, m1. rewrite lookup_insert_ne by discriminate.
    rewrite scaffolded_modules_root. exact I. }
  assert (Hnone1 : m1 !! app_dir b = None).
  { destruct (below_other_module b a [] (not_eq_sym Hab)) as [H1 H2].
    unfold m1. rewrite lookup_insert_ne; [|exact (settings_not_below b [])].
    rewrite scaffolded_outside; [exact Hnone_b | exact H1 | exact H2]. }
  assert (Htext1 : m1 !! SETTINGS_FILE = Some (File text1)) by apply lookup_insert_eq.
  assert (Hanchor1 : anchor ∈ splitlines text1).
  { rewrite Hlines1. apply strip_last_empty_elem; [discriminate|].
    apply elem_of_app. left. apply (list_elem_of_lookup_2 _ i).
    rewrite lookup_take_lt by lia. exact (index_lookup _ _ _ Hi). }
  destruct (index_elem _ _ Hanchor1) as [j Hj].
  assert (Hany1 : any_contains b (splitlines text1) = false).
  { apply any_contains_none. intros line Hin. rewrite Hlines1 in Hin.
    apply elem_of_strip_last_empty in Hin.
    assert (Hold : line ∈ splitlines text -> contains b line = false)
      by exact (any_contains_false _ _ _ Hany_b).
    apply elem_of_app in Hin as [Hin|Hin].
    { apply Hold. rewrite <- (take_drop (i + 1) (splitlines text)).
      apply elem_of_app. left. exact Hin. }
    apply elem_of_cons in Hin as [->|Hin]; [exact Hfree|].
    apply elem_of_cons in Hin as [->|Hin].
    { destruct b; [discriminate Hb | reflexivity]. }
    apply Hold. rewrite <- (take_drop (i + 1) (splitlines text)).
    apply elem_of_app. right. exact Hin. }
  assert (Hone_a : occurrences (registration_entry a) (splitlines text1) = 1%nat)
    by exact (registered_once _ _ _ Ha Hbreak Hany_a).
  pose proof (splitlines_no_break text1) as Hbreak1.
  set (text2 := registered_text b j (splitlines text1)).
  assert (Hone_b : occurrences (registration_entry b) (splitlines text2) = 1%nat)
    by exact (registered_once _ _ _ Hb Hbreak1 Hany1).
  assert (Hkeep : occurrences (registration_entry a) (splitlines text2) = 1%nat).
  { unfold text2. rewrite (registered_lines _ _ _ Hb Hbreak1).
    rewrite occurrences_strip by apply registration_entry_nonempty.
    rewrite occurrences_app, !occurrences_cons.
    rewrite decide_False by (intros Heq; apply Hab; symmetry; exact (registration_entry_inj _ _ Hb Ha Heq)).
    rewrite decide_False by (apply not_eq_sym, registration_entry_nonempty).
    rewrite <- (take_drop (j + 1) (splitlines text1)), occurrences_app in Hone_a. lia. }
  pose proof (CreateModule_registers _ _ out Ha Hwf Hroot Hnone_a text i Htext Hi Hany_a) as Hrun1.
  pose proof (CreateModule_registers _ _ (out ++ scaffold_log a ++
                "✅ App registered in settings.py" :: success_report a)
                Hb Hwf1 Hroot1 Hnone1 text1 j Htext1 Hj Hany1) as Hrun2.
  eexists. eexists. exists (splitlines text2).
  split; [exact Hrun1|]. split; [exact Hrun2|]. cbn [fs].
  split; [|split; [|split; [|split; [exact Hkeep | exact Hone_b]]]].
  - rewrite lookup_insert_ne by discriminate.
    destruct (below_other_module a b ["apps.py"] Hab) as [H1 H2].
    rewrite scaffolded_outside; [|exact H1 | exact H2].
    unfold m1. rewrite lookup_insert_ne by discriminate.
    apply scaffolded_entry, apps_entry.
  - rewrite lookup_insert_ne by discriminate. apply scaffolded_entry, apps_entry.
  - unfold settings_lines. rewrite lookup_insert_eq. reflexivity.
Qed.

(** X9, witness: [billing], then [orders]. *)
Lemma two_modules_registered_example :
  exists st1 st2 ls2,
    CreateModule "billing" (project settings_minimal) = (Return tt, st1) /\
    CreateModule "orders" st1 = (Return tt, st2) /\
    settings_lines (fs st2) = Some ls2 /\
    occurrences (registration_entry "billing") ls2 = 1%nat /\
    occurrences (registration_entry "orders") ls2 = 1%nat.
Proof.
  destruct (two_modules_registered "billing" "orders" (project settings_minimal)
              ["LOCAL_APPS = ["; "]"])
    as (st1 & st2 & ls2 & Hrun1 & Hrun2 & _ & _ & Hls2 & Ha & Hb).
  - reflexivity.
  - reflexivity.
  - discriminate.
  - apply project_wf.
  - exact I.
  - reflexivity.
  - reflexivity.
  - reflexivity.
  - apply list_elem_of_here.
  - reflexivity.
  - reflexivity.
  - reflexivity.
  - exists st1, st2, ls2. repeat split; assumption.
Defined.


Import Pathlib Command.

(** * The management command: nodes below a directory *)

Lemma mkdir_parents_eq (p : path) :
  mkdir_parents p =
  mkdir_exist_ok p
    (fun e : exn =>
       match p with
       | [] => raise e
       | _ :: parent => mkdir_parents parent ;; mkdir_exist_ok p raise
       end).
Proof. destruct p; reflexivity. Qed.

Lemma mkdirs_eq (rel : path) (es : list (path * node)) :
  mkdirs rel es =
  match find_node rel es with
  | Some Dir => Some es
  | Some (File _) => None
  | None =>
      match rel with
      | [] => None
      | _ :: parent =>
          match mkdirs parent es with
          | Some es' => Some ((rel, Dir) :: es')
          | None => None
          end
      end
  end.
Proof. destruct rel; reflexivity. Qed.

Lemma mkdirs_find_self (rel : path) (es es' : list (path * node)) :
  mkdirs rel es = Some es' -> find_node rel es' = Some Dir.
Proof.
  rewrite mkdirs_eq. destruct (find_node rel es) as [[|text]|] eqn:Hrel.
  - intros [= <-]. exact Hrel.
  - discriminate.
  - destruct rel as [|name parent]; [discriminate|].
    destruct (mkdirs parent es) as [es1|]; [|discriminate].
    intros [= <-]. cbn [find_node fst snd]. rewrite decide_True by reflexivity. reflexivity.
Qed.

Lemma mkdirs_find_longer (rel : path) :
  forall (es es' : list (path * node)) (q : path),
    mkdirs rel es = Some es' -> (length rel < length q)%nat ->
    find_node q es' = find_node q es.
Proof.
  induction rel as [|name parent IH]; intros es es' q; rewrite mkdirs_eq.
  - destruct (find_node [] es) as [[|text]|]; [|discriminate..]. now intros [= <-].
  - destruct (find_node (name :: parent) es) as [[|text]|]; [now intros [= <-] | discriminate |].
    destruct (mkdirs parent es) as [es1|] eqn:H1; [|discriminate].
    intros [= <-] Hlen. cbn [find_node fst snd].
    rewrite decide_False by (intros <-; lia).
    apply (IH _ _ _ H1). cbn [length] in Hlen. lia.
Qed.

Lemma joinpaths_rev (base : path) (s : string) : base <//> s = rev (parts s) ++ base.
Proof.
  unfold joinpaths. generalize (parts s). intros l. revert base.
  induction l as [|x l IH]; intros base; [reflexivity|].
  cbn [foldl rev]. rewrite IH. unfold joinpath. now rewrite <- app_assoc.
Qed.

Section Overlay.
Variables (root : path) (base : fsmap).
Hypothesis Hroot : root ≠ [].
Hypothesis Hfresh : forall rel, base !! (rel ++ root) = None.

Lemma overlay_lookup (es : list (path * node)) (rel : path) :
  overlay root es base !! (rel ++ root) = find_node rel es.
Proof.
  induction es as [|[k x] es IH]; cbn [overlay foldr find_node fst snd].
  - apply Hfresh.
  - destruct (decide (k = rel)) as [->|Hne].
    + apply lookup_insert_eq.
    + rewrite lookup_insert_ne; [exact IH|].
      intros Heq. apply Hne. exact (app_inv_tail _ _ _ Heq).
Qed.

Lemma overlay_outside (es : list (path * node)) (q : path) :
  (forall rel, q ≠ rel ++ root) -> overlay root es base !! q = base !! q.
Proof.
  intros Hq. induction es as [|[k x] es IH]; cbn [overlay foldr fst snd]; [reflexivity|].
  rewrite lookup_insert_ne; [exact IH|]. intros Heq. exact (Hq k (eq_sym Heq)).
Qed.

Lemma overlay_node (es : list (path * node)) (rel : path) :
  lookup_node (overlay root es base) (rel ++ root) = find_node rel es.
Proof.
  rewrite lookup_node_ne; [apply overlay_lookup|].
  destruct rel; [exact Hroot | discriminate].
Qed.

Lemma mkdir_present (rel : path) (es : list (path * node)) (out : list string) (x : node) :
  find_node rel es = Some x ->
  mkdir (rel ++ root) (State (overlay root es base) out) =
  (Raise (FileExistsError (rel ++ root)), State (overlay root es base) out).
Proof. intros H. unfold mkdir, exists_in. cbn [fs stdout]. now rewrite overlay_node, H. Qed.

Lemma mkdir_child (name : string) (parent : path) (es : list (path * node)) (out : list string) :
  find_node (name :: parent) es = None ->
  mkdir ((name :: parent) ++ root) (State (overlay root es base) out) =
  match find_node parent es with
  | None => (Raise (FileNotFoundError ((name :: parent) ++ root)),
             State (overlay root es base) out)
  | Some (File _) => (Raise (NotADirectoryError ((name :: parent) ++ root)),
                      State (overlay root es base) out)
  | Some Dir => (Return tt, State (overlay root ((name :: parent, Dir) :: es) base) out)
  end.
Proof.
  intros H. unfold mkdir, exists_in. cbn [fs stdout]. rewrite overlay_node, H.
  cbn [app tail]. rewrite overlay_node. reflexivity.
Qed.

Lemma isdir_overlay (rel : path) (es : list (path * node)) (out : list string) :
  isdir (rel ++ root) (State (overlay root es base) out) =
  (Return (match find_node rel es with Some Dir => true | _ => false end),
   State (overlay root es base) out).
Proof. unfold isdir, isdir_in. cbn [fs]. now rewrite overlay_node. Qed.

(** A directory that is there is left alone. *)
Lemma mkdir_exist_ok_present (rel : path) (es : list (path * node)) (out : list string)
    (on_missing : exn -> M unit) :
  find_node rel es = Some Dir ->
  mkdir_exist_ok (rel ++ root) on_missing (State (overlay root es base) out) =
  (Return tt, State (overlay root es base) out).
Proof.
  intros H. unfold mkdir_exist_ok. eapply try_raise.
  { exact (mkdir_present _ _ _ _ H). }
  { reflexivity. }
  cbv beta iota. erewrite bind_return by apply isdir_overlay. now rewrite H.
Qed.

Lemma mkdir_exist_ok_child (name : string) (parent : path) (es : list (path * node))
    (out : list string) (on_missing : exn -> M unit) :
  find_node (name :: parent) es = None ->
  find_node parent es = Some Dir ->
  mkdir_exist_ok ((name :: parent) ++ root) on_missing (State (overlay root es base) out) =
  (Return tt, State (overlay root ((name :: parent, Dir) :: es) base) out).
Proof.
  intros H Hparent. unfold mkdir_exist_ok. apply try_return.
  now rewrite (mkdir_child _ _ _ _ H), Hparent.
Qed.

(** [mkdir(parents=True, exist_ok=True)] below [root] does what [mkdirs]
    says. *)
Lemma mkdir_parents_overlay (rel : path) :
  forall (es es' : list (path * node)) (out : list string),
    mkdirs rel es = Some es' ->
    mkdir_parents (rel ++ root) (State (overlay root es base) out) =
    (Return tt, State (overlay root es' base) out).
Proof.
  induction rel as [|name parent IH]; intros es es' out; rewrite mkdirs_eq, mkdir_parents_eq.
  - destruct (find_node [] es) as [[|text]|] eqn:H; [|discriminate..].
    intros [= <-]. now apply mkdir_exist_ok_present.
  - destruct (find_node (name :: parent) es) as [[|text]|] eqn:H; [|discriminate|].
    { intros [= <-]. now apply mkdir_exist_ok_present. }
    destruct (mkdirs parent es) as [es1|] eqn:H1; [|discriminate]. intros [= <-].
    destruct (find_node parent es) as [[|text]|] eqn:Hparent.
    + rewrite mkdirs_eq, Hparent in H1. injection H1 as <-.
      now apply mkdir_exist_ok_child.
    + rewrite mkdirs_eq, Hparent in H1. discriminate.
    + unfold mkdir_exist_ok at 1. eapply try_raise.
      { rewrite (mkdir_child _ _ _ _ H), Hparent. reflexivity. }
      { reflexivity. }
      cbv beta iota. cbn [app].
      erewrite bind_return by exact (IH _ _ _ H1).
      apply (mkdir_exist_ok_child name parent).
      * rewrite (mkdirs_find_longer _ _ _ _ H1); [exact H | cbn [length]; lia].
      * exact (mkdirs_find_self _ _ _ H1).
Qed.

Lemma path_exists_overlay (rel : path) (es : list (path * node)) (out : list string) :
  path_exists (rel ++ root) (State (overlay root es base) out) =
  (Return (match find_node rel es with Some _ => true | None => false end),
   State (overlay root es base) out).
Proof. unfold path_exists, exists_in. cbn [fs]. now rewrite overlay_node. Qed.

Lemma write_text_overlay (name : string) (parent : path) (text : string)
    (es : list (path * node)) (out : list string) :
  find_node parent es = Some Dir ->
  find_node (name :: parent) es = None ->
  write_text ((name :: parent) ++ root) text (State (overlay root es base) out) =
  (Return tt, State (overlay root ((name :: parent, File text) :: es) base) out).
Proof.
  intros Hparent H. unfold write_text. cbn [app fs stdout].
  rewrite overlay_node, Hparent.
  change (name :: parent ++ root) with ((name :: parent) ++ root).
  now rewrite overlay_lookup, H.
Qed.

(** [touch] below [root] does what [touched] says. *)
Lemma touch_overlay (rel : path) (es es' : list (path * node)) (out : list string) :
  touched rel es = Some es' ->
  touch (rel ++ root) (State (overlay root es base) out) =
  (Return tt, State (overlay root es' base) out).
Proof.
  unfold touched, touch. intros H.
  erewrite bind_return by apply path_exists_overlay.
  destruct (find_node rel es) as [x|] eqn:Hrel; [now injection H as <-|].
  destruct rel as [|name parent]; cbn [tail] in H.
  - now rewrite Hrel in H.
  - destruct (find_node parent es) as [[|text]|] eqn:Hparent; try discriminate.
    injection H as <-. now apply write_text_overlay.
Qed.

(** The loop over [structure]. *)
Lemma structure_loop (items : list (string * option string)) :
  forall (es es' : list (path * node)) (out : list string),
    fold_items structure_item es items = Some es' ->
    for_each (fun item : string * option string =>
                let full_path := root <//> item.1 in
                mkdir_parents full_path ;;
                match item.2 with
                | Some file_name => touch (full_path <//> file_name)
                | None => mret tt
                end) items (State (overlay root es base) out) =
    (Return tt, State (overlay root es' base) out).
Proof.
  induction items as [|[sub_dir file_name] items IH]; intros es es' out; cbn [fold_items for_each].
  - now intros [= <-].
  - unfold structure_item at 1. cbn [fst snd].
    destruct (mkdirs (rev (parts sub_dir)) es) as [es1|] eqn:H1; [|discriminate].
    cbv zeta. destruct file_name as [file_name|].
    + rewrite !joinpaths_rev, app_assoc.
      destruct (touched _ es1) as [es2|] eqn:H2; [|discriminate]. intros H.
      erewrite bind_return; [exact (IH _ _ _ H)|].
      erewrite bind_return by exact (mkdir_parents_overlay _ _ _ _ H1).
      exact (touch_overlay _ _ _ _ H2).
    + rewrite joinpaths_rev. intros H. erewrite bind_return; [exact (IH _ _ _ H)|].
      erewrite bind_return by exact (mkdir_parents_overlay _ _ _ _ H1).
      reflexivity.
Qed.

(** The loop over [packages]. *)
Lemma packages_loop (dirs : list string) :
  forall (es es' : list (path * node)) (out : list string),
    fold_items package_item es dirs = Some es' ->
    for_each (fun sub_dir => touch (root <//> sub_dir <//> "__init__.py")) dirs
             (State (overlay root es base) out) =
    (Return tt, State (overlay root es' base) out).
Proof.
  induction dirs as [|sub_dir dirs IH]; intros es es' out; cbn [fold_items for_each].
  - now intros [= <-].
  - unfold package_item at 1.
    destruct (touched _ es) as [es1|] eqn:H1; [|discriminate]. intros H.
    erewrite bind_return; [exact (IH _ _ _ H)|].
    rewrite !joinpaths_rev, app_assoc. exact (touch_overlay _ _ _ _ H1).
Qed.

End Overlay.

(** * The management command: [handle] *)




Lemma parts_identifier (s : string) : isidentifier s = true -> parts s = [s].
Proof.
  intros Hid. assert (Hsplit : split_slash s = [s]).
  { apply identifier_chars in Hid. induction s as [|c s IH]; [reflexivity|].
    cbn [all_chars] in Hid. apply andb_prop in Hid as [Hc Hs].
    cbn [split_slash]. rewrite (IH Hs).
    destruct (Ascii.eqb_spec c "/"); [subst c; discriminate Hc | reflexivity]. }
  unfold parts. rewrite Hsplit. cbn [List.filter].
  destruct s as [|c s]; [discriminate Hid|].
  destruct (String.eqb_spec (String c s) ".") as [Heq|_]; [|reflexivity].
  injection Heq as -> ->. discriminate Hid.
Qed.

Lemma open_read_run (p : path) (m : fsmap) (out : list string) :
  p ≠ [] ->
  open_read p (State m out) =
  match m !! p with
  | Some (File text) => (Return (universal_newlines text), State m out)
  | Some Dir => (Raise (IsADirectoryError p), State m out)
  | None => (Raise (FileNotFoundError p), State m out)
  end.
Proof.
  intros Hp. unfold open_read, mbind, M_bind. rewrite (read_text_run _ _ _ Hp).
  destruct (m !! p) as [[|text]|]; reflexivity.
Qed.

Lemma mkdir_orphan (name : string) (parent : path) (m : fsmap) (out : list string) :
  parent ≠ [] -> m !! (name :: parent) = None -> m !! parent = None ->
  mkdir (name :: parent) (State m out) =
  (Raise (FileNotFoundError (name :: parent)), State m out).
Proof.
  intros Hp Hnone Hparent. unfold mkdir, exists_in. cbn [fs stdout tail].
  rewrite lookup_node_cons, Hnone, (lookup_node_ne _ _ Hp), Hparent. reflexivity.
Qed.

Lemma app_dir_nonempty (app_name : string) : app_dir app_name ≠ [].
Proof. discriminate. Qed.

Section Handle.
Variables (module_name : string) (m : fsmap) (out : list string).
Hypothesis Hname : parts module_name = [module_name].
Hypothesis Hwf : wf_fs m.
Hypothesis Hroot : modules_root_ok m.
Hypothesis Hnone : m !! app_dir module_name = None.

Lemma module_dir_eq : BASE_DIR <//> "modules" <//> module_name = app_dir module_name.
Proof. rewrite (joinpaths_rev _ module_name), Hname. reflexivity. Qed.

Lemma modules_root_fresh (rel : path) :
  <[MODULES_DIR := Dir]> m !! (rel ++ app_dir module_name) = None.
Proof.
  rewrite lookup_insert_ne by apply not_eq_sym, (app_cons_ne rel module_name MODULES_DIR).
  exact (fresh_below _ _ Hwf Hnone rel).
Qed.

Lemma first_mkdir :
  mkdir_parents (app_dir module_name) (State m out) =
  (Return tt,
   State (overlay (app_dir module_name) [([], Dir)] (<[MODULES_DIR := Dir]> m)) out).
Proof.
  cbn [overlay foldr fst snd app]. rewrite mkdir_parents_eq. unfold mkdir_exist_ok.
  destruct (modules_root_insert _ Hroot) as [Hdir|Hmissing].
  - rewrite (insert_id _ _ _ Hdir). apply try_return.
    apply mkdir_fresh; [discriminate | | exact Hnone].
    apply isdir_in_Some; [discriminate | exact Hdir].
  - eapply try_raise.
    { apply mkdir_orphan; [discriminate | exact Hnone | exact Hmissing]. }
    { reflexivity. }
    cbv beta iota. unfold app_dir at 1, joinpath at 1.
    erewrite bind_return; cycle 1.
    { rewrite mkdir_parents_eq. unfold mkdir_exist_ok. apply try_return.
      apply mkdir_fresh; [discriminate | reflexivity | exact Hmissing]. }
    unfold mkdir_exist_ok. apply try_return.
    apply mkdir_fresh; [discriminate | | ].
    + apply isdir_in_Some; [discriminate | apply lookup_insert_eq].
    + rewrite lookup_insert_ne by discriminate. exact Hnone.
Qed.

Lemma structure_run :
  fold_items structure_item [([], Dir)] structure = Some structure_tree.
Proof. vm_compute. reflexivity. Qed.

Lemma packages_run :
  fold_items package_item structure_tree packages = Some (package_markers ++ structure_tree).
Proof. vm_compute. reflexivity. Qed.

Let created : string := "Module '" +:+ module_name +:+ "' created successfully.".
Let registered : string :=
  "Module '" +:+ module_name +:+ "' registered in settings.INSTALLED_APPS.".

(** What is left of the [try] block once the tree is written. *)
Let register : M unit :=
  settings_content ← open_read SETTINGS_FILE;
  if negb (contains (quoted module_name) settings_content) then
    write_text SETTINGS_FILE
      (replace installed_apps (installed_apps_with module_name) settings_content) ;;
    print registered
  else mret tt.

Lemma create_and_register_tree :
  create_and_register BASE_DIR (app_dir module_name) module_name (State m out) =
  register (State (module_created module_name m) (out ++ [created])).
Proof.
  unfold create_and_register.
  erewrite bind_return by exact first_mkdir.
  erewrite bind_return
    by exact (structure_loop _ _ (app_dir_nonempty _) modules_root_fresh _ _ _ _ structure_run).
  erewrite bind_return
    by exact (packages_loop _ _ (app_dir_nonempty _) modules_root_fresh _ _ _ _ packages_run).
  cbv zeta. rewrite (joinpaths_rev _ "apps.py").
  erewrite bind_return
    by exact (write_text_overlay _ _ (app_dir_nonempty _) modules_root_fresh
                "apps.py" [] _ (package_markers ++ structure_tree) _ eq_refl eq_refl).
  erewrite bind_return by reflexivity.
  reflexivity.
Qed.

Lemma settings_after_tree :
  module_created module_name m !! SETTINGS_FILE = m !! SETTINGS_FILE.
Proof.
  unfold module_created. rewrite overlay_outside by apply settings_not_below.
  apply lookup_insert_ne. discriminate.
Qed.

Lemma core_after_tree : module_created module_name m !! ["core"] = m !! ["core"].
Proof.
  unfold module_created. rewrite overlay_outside by apply core_not_below.
  apply lookup_insert_ne. discriminate.
Qed.

Lemma handle_fresh :
  handle module_name (State m out) =
  match register (State (module_created module_name m) (out ++ [created])) with
  | (Return _, st') => (Done, st')
  | (Raise e, st') =>
      if is_Exception e then
        (CommandError ("An error occurred while creating the module: " +:+ str_exn e), st')
      else (Uncaught e, st')
  end.
Proof.
  unfold handle. cbv zeta. rewrite module_dir_eq. unfold exists_in. cbn [fs].
  rewrite lookup_node_ne by discriminate. rewrite Hnone.
  rewrite create_and_register_tree. reflexivity.
Qed.

Lemma handle_registers (text : string) :
  m !! SETTINGS_FILE = Some (File text) ->
  contains (quoted module_name) (universal_newlines text) = false ->
  handle module_name (State m out) =
  (Done,
   State (<[SETTINGS_FILE :=
              File (replace installed_apps (installed_apps_with module_name)
                            (universal_newlines text))]>
            (module_created module_name m))
         (out ++ [created; registered])).
Proof.
  intros Htext Hquoted. rewrite handle_fresh. unfold register.
  erewrite bind_return; cycle 1.
  { rewrite open_read_run by discriminate. rewrite settings_after_tree, Htext. reflexivity. }
  rewrite Hquoted. cbv beta iota delta [negb].
  erewrite bind_return; cycle 1.
  { apply (write_text_over _ _ text); [discriminate | | ].
    - change (tail SETTINGS_FILE) with ["core"].
      apply isdir_in_Some; [discriminate|]. rewrite core_after_tree.
      apply (wf_fs_parent _ "settings.py" _ (File text) Hwf); [discriminate | exact Htext].
    - rewrite settings_after_tree. exact Htext. }
  unfold print. cbn [fs stdout]. rewrite <- app_assoc. reflexivity.
Qed.

Lemma handle_mentioned (text : string) :
  m !! SETTINGS_FILE = Some (File text) ->
  contains (quoted module_name) (universal_newlines text) = true ->
  handle module_name (State m out) =
  (Done, State (module_created module_name m) (out ++ [created])).
Proof.
  intros Htext Hquoted. rewrite handle_fresh. unfold register.
  erewrite bind_return; cycle 1.
  { rewrite open_read_run by discriminate. rewrite settings_after_tree, Htext. reflexivity. }
  rewrite Hquoted. reflexivity.
Qed.

Lemma handle_unreadable :
  settings_lines m = None ->
  exists e,
    handle module_name (State m out) =
    (CommandError ("An error occurred while creating the module: " +:+ str_exn e),
     State (module_created module_name m) (out ++ [created])) /\
    (m !! SETTINGS_FILE = None -> e = FileNotFoundError SETTINGS_FILE).
Proof.
  intros Hls. unfold settings_lines in Hls. rewrite handle_fresh.
  destruct (m !! SETTINGS_FILE) as [[|text]|] eqn:Hs; [|discriminate|].
  - exists (IsADirectoryError SETTINGS_FILE). split; [|discriminate].
    assert (Hreg : register (State (module_created module_name m) (out ++ [created])) =
                   (Raise (IsADirectoryError SETTINGS_FILE),
                    State (module_created module_name m) (out ++ [created]))).
    { apply bind_raise. rewrite open_read_run by discriminate.
      rewrite settings_after_tree, Hs. reflexivity. }
    rewrite Hreg. reflexivity.
  - exists (FileNotFoundError SETTINGS_FILE). split; [|reflexivity].
    assert (Hreg : register (State (module_created module_name m) (out ++ [created])) =
                   (Raise (FileNotFoundError SETTINGS_FILE),
                    State (module_created module_name m) (out ++ [created]))).
    { apply bind_raise. rewrite open_read_run by discriminate.
      rewrite settings_after_tree, Hs. reflexivity. }
    rewrite Hreg. reflexivity.
Qed.

End Handle.

Lemma module_created_below (module_name : string) (m : fsmap) (rel : path) :
  wf_fs m -> m !! app_dir module_name = None ->
  module_created module_name m !! (rel ++ app_dir module_name) =
  find_node rel (module_tree module_name).
Proof.
  intros Hwf Hnone. unfold module_created.
  apply overlay_lookup. exact (modules_root_fresh _ _ Hwf Hnone).
Qed.

Lemma handle_exists (module_name : string) (st : state) :
  parts module_name = [module_name] ->
  is_Some (fs st !! app_dir module_name) ->
  handle module_name st =
  (CommandError ("The module '" +:+ module_name +:+ "' already exists."), st).
Proof.
  intros Hname [x Hx]. unfold handle. cbv zeta. rewrite (module_dir_eq _ Hname).
  unfold exists_in. rewrite lookup_node_ne by discriminate. now rewrite Hx.
Qed.

(** A run of [handle] on a new module whose settings can be read. *)
Lemma handle_done (module_name : string) (st : state) (text : string) :
  parts module_name = [module_name] ->
  wf_fs (fs st) ->
  modules_root_ok (fs st) ->
  fs st !! app_dir module_name = None ->
  fs st !! SETTINGS_FILE = Some (File text) ->
  exists st',
    handle module_name st = (Done, st') /\
    (forall rel, fs st' !! (rel ++ app_dir module_name) =
                 find_node rel (module_tree module_name)).
Proof.
  intros Hname Hwf Hroot Hnone Htext. destruct st as [m out]. cbn [fs] in *.
  destruct (contains (quoted module_name) (universal_newlines text)) eqn:Hquoted.
  - eexists. split; [exact (handle_mentioned _ _ out Hname Hwf Hroot Hnone text Htext Hquoted)|].
    cbn [fs]. intros rel. exact (module_created_below _ _ rel Hwf Hnone).
  - eexists. split; [exact (handle_registers _ _ out Hname Hwf Hroot Hnone text Htext Hquoted)|].
    cbn [fs]. intros rel. rewrite lookup_insert_ne by apply settings_not_below.
    exact (module_created_below _ _ rel Hwf Hnone).
Qed.



(** X11.  When the module's directory (or anything of that name) exists,
    [handle] raises [CommandError] before it does anything: the file
    system and the output are as they were. *)
Theorem handle_existing_module (module_name : string) (st : state) :
  parts module_name = [module_name] ->
  is_Some (fs st !! app_dir module_name) ->
  handle module_name st =
  (CommandError ("The module '" +:+ module_name +:+ "' already exists."), st).
Proof. exact (handle_exists module_name st). Qed.

(** X11, witness: a module directory that is there. *)
Lemma handle_existing_module_billing :
  (handle "billing" (State (<[app_dir "billing" := Dir]> ∅) [])).1 =
  CommandError "The module 'billing' already exists.".
Proof.
  rewrite (handle_existing_module "billing" (State (<[app_dir "billing" := Dir]> ∅) []));
    [reflexivity | reflexivity | eexists; reflexivity].
Defined.









(** * Retries, and the two tools together *)

(** X16.  After a run that created the scaffold and failed to register it,
    the same name is rejected, whatever the settings have become in the
    meantime: [create_app] raises [AlreadyExists], the process ends with
    status 1 and nothing is written. *)
Theorem failed_run_blocks_retry (app_name : string) (st : state) (text : string) :
  isidentifier app_name = true ->
  wf_fs (fs st) ->
  modules_root_ok (fs st) ->
  fs st !! app_dir app_name = None ->
  (forall ls, settings_lines (fs st) = Some ls -> anchor ∉ ls) ->
  exists st1,
    CreateModule app_name st = (Raise (SystemExit 1), st1) /\
    fs st1 !! app_dir app_name = Some Dir /\
    forall out, exists out',
      create_app app_name (State (<[SETTINGS_FILE := File text]> (fs st1)) out) =
        (Raise (AlreadyExists app_name),
         State (<[SETTINGS_FILE := File text]> (fs st1)) out') /\
      CreateModule app_name (State (<[SETTINGS_FILE := File text]> (fs st1)) out) =
        (Raise (SystemExit 1),
         State (<[SETTINGS_FILE := File text]> (fs st1))
               (out' ++ [nl +:+ "❌ Error: " +:+ str_exn (AlreadyExists app_name)])).
Proof.
  intros Hid Hwf Hroot Hnone Hanchor.
  assert (Hst1 : exists out1, CreateModule app_name st =
            (Raise (SystemExit 1), State (scaffolded app_name (fs st)) out1)).
  { destruct (CreateModule_ends app_name st Hwf)
      as [out' Hno|out' _ _ _ _|ls i out' _ _ _ Hls Hi].
    - exfalso. apply Hno. split; [exact Hid|]. split; [exact Hroot | exact Hnone].
    - exists out'. reflexivity.
    - exfalso. apply (Hanchor ls Hls).
      exact (list_elem_of_lookup_2 _ _ _ (index_lookup _ _ _ Hi)). }
  destruct Hst1 as [out1 Hrun]. eexists. split; [exact Hrun|]. cbn [fs].
  split; [apply scaffolded_app_dir|]. intros out.
  assert (Hthere : is_Some (<[SETTINGS_FILE := File text]> (scaffolded app_name (fs st))
                              !! app_dir app_name)).
  { exists Dir. rewrite lookup_insert_ne by apply (settings_not_below app_name []).
    apply scaffolded_app_dir. }
  eexists. split; [exact (create_app_exists _ _ out Hthere)|].
  exact (CreateModule_raise _ _ _ _ Hid (create_app_exists _ _ out Hthere)).
Qed.

(** X16, witness: [billing] with settings that get their list too late. *)
Lemma failed_run_blocks_retry_billing :
  exists st1,
    CreateModule "billing" (project settings_no_anchor) = (Raise (SystemExit 1), st1) /\
    (CreateModule "billing" (State (<[SETTINGS_FILE := File settings_minimal]> (fs st1)) [])).1 =
      Raise (SystemExit 1).
Proof.
  destruct (failed_run_blocks_retry "billing" (project settings_no_anchor) settings_minimal)
    as (st1 & Hrun & _ & Hretry).
  - reflexivity.
  - apply project_wf.
  - exact I.
  - reflexivity.
  - intros ls [= <-] Hin. apply list_elem_of_In in Hin. cbn in Hin.
    destruct Hin as [H|[H|[]]]; discriminate H.
  - exists st1. split; [exact Hrun|].
    destruct (Hretry []) as (out' & _ & Hagain). now rewrite Hagain.
Defined.

(** When the modules root is a regular file, [handle] fails before
    anything is written. *)
Lemma handle_root_is_file (module_name : string) (m : fsmap) (out : list string)
    (text : string) :
  parts module_name = [module_name] ->
  m !! app_dir module_name = None ->
  m !! MODULES_DIR = Some (File text) ->
  exists msg, handle module_name (State m out) = (CommandError msg, State m out).
Proof.
  intros Hname Hnone Hm.
  assert (Hmkdir : mkdir_parents (app_dir module_name) (State m out) =
                   (Raise (NotADirectoryError (app_dir module_name)), State m out)).
  { rewrite mkdir_parents_eq. unfold mkdir_exist_ok. eapply try_raise.
    { unfold mkdir, exists_in. cbn [fs stdout]. rewrite lookup_node_ne by discriminate.
      rewrite Hnone. change (tail (app_dir module_name)) with MODULES_DIR.
      rewrite lookup_node_ne by discriminate. rewrite Hm. reflexivity. }
    { reflexivity. }
    cbv beta iota. erewrite bind_return; cycle 1.
    { unfold isdir, isdir_in. cbn [fs]. rewrite lookup_node_ne by discriminate.
      rewrite Hnone. reflexivity. }
    reflexivity. }
  eexists. unfold handle. cbv zeta. rewrite (module_dir_eq _ Hname).
  unfold exists_in. cbn [fs]. rewrite lookup_node_ne by discriminate. rewrite Hnone.
  unfold create_and_register. rewrite (bind_raise _ _ _ _ _ Hmkdir). reflexivity.
Qed.

(** X17.  The script and the management command exclude each other on a
    name: a module made by one is rejected by the other, which leaves the
    file system as it is. *)
Theorem tools_exclude_each_other (name : string) (st : state) :
  isidentifier name = true ->
  wf_fs (fs st) ->
  ((CreateModule name st).1 = Return tt ->
   handle name (CreateModule name st).2 =
     (CommandError ("The module '" +:+ name +:+ "' already exists."),
      (CreateModule name st).2)) /\
  ((handle name st).1 = Done ->
   exists out',
     CreateModule name (handle name st).2 =
       (Raise (SystemExit 1), State (fs (handle name st).2) out')).
Proof.
  intros Hid Hwf. pose proof (parts_identifier _ Hid) as Hname. split.
  - intros Hret. apply handle_exists; [exact Hname|].
    destruct (CreateModule_ends name st Hwf)
      as [out' _|out' _ _ _ _|ls i out' _ _ _ _ _]; try discriminate Hret.
    cbn [snd fs]. exists Dir. destruct (any_contains name ls); [apply scaffolded_app_dir|].
    rewrite lookup_insert_ne by apply (settings_not_below name []). apply scaffolded_app_dir.
  - intros Hdone. destruct st as [m out]. cbn [fs] in *.
    assert (Hthere : is_Some (fs (handle name (State m out)).2 !! app_dir name)).
    { destruct (m !! app_dir name) as [x|] eqn:Hnone.
      { rewrite (handle_exists name (State m out) Hname (mk_is_Some _ _ Hnone)) in Hdone.
        discriminate Hdone. }
      destruct (m !! MODULES_DIR) as [[|text]|] eqn:Hm.
      2:{ destruct (handle_root_is_file _ _ out text Hname Hnone Hm) as [msg Hrun].
          rewrite Hrun in Hdone. discriminate Hdone. }
      all: assert (Hroot : modules_root_ok m) by (unfold modules_root_ok; now rewrite Hm).
      all: destruct (settings_lines m) as [ls|] eqn:Hls.
      all: try (apply settings_lines_file in Hls as (text & Htext & _);
                destruct (handle_done name (State m out) text Hname Hwf Hroot Hnone Htext)
                  as (st' & Hrun & Hbelow);
                rewrite Hrun; cbn [snd]; exists Dir; exact (Hbelow [])).
      all: destruct (handle_unreadable _ _ out Hname Hwf Hroot Hnone Hls) as (e & Hrun & _);
        rewrite Hrun in Hdone; discriminate Hdone. }
    destruct (handle name (State m out)) as [r [m' out1]]. cbn [snd fs] in *.
    eexists. exact (CreateModule_raise _ _ _ _ Hid (create_app_exists _ _ out1 Hthere)).
Qed.

(** X17, witness: [billing] made by the script, then asked of the
    command. *)
Lemma tools_exclude_each_other_billing :
  (handle "billing" (CreateModule "billing" (project settings_minimal)).2).1 =
  CommandError "The module 'billing' already exists.".
Proof.
  destruct (tools_exclude_each_other "billing" (project settings_minimal) eq_refl (project_wf _))
    as [Hscript _].
  rewrite Hscript; [reflexivity|]. vm_compute. reflexivity.
Defined.

(** * The line the command inserts *)











